(** * keystroke-auth: key-event capture and identity resolution

    A shallow embedding of

      - [src/models/key_model.py]                         ([Key]),
      - [src/data_collection/keyboard/key_controller.py]  ([KeyController]),
      - [src/system_info.py]                              ([SystemInfo]),

    together with the properties of these modules.  The operating system
    (User32/Kernel32 entry points, registry, files, child processes) is a
    record of answers the code receives; Python exceptions are values of an
    error type; the two pieces of state the code touches (open process
    handles, the node cache of the [uuid] module and the objects it
    allocates) are threaded explicitly through a state-and-exception
    monad. *)

From Stdlib Require Import ZArith List String Ascii Bool Lia.
From Stdlib Require DecimalString HexadecimalString DecimalZ DecimalPos.
Import ListNotations.
Local Open Scope Z_scope.

(* ===================================================================== *)
(** * Python: strings, exceptions, control flow                          *)
(* ===================================================================== *)

Module Py.

(** A [str] is the list of its code units.  Text coming out of a ctypes
    wide-character buffer is kept as UTF-16 units: the operations applied to
    it here ([strip], a length-one test combined with a general-category
    test for [Cc]) give the same answer on a surrogate pair as on the code
    point it encodes, because no whitespace or control character lies
    outside the basic plane. *)
Definition str := list Z.

Definition lit (s : string) : str :=
  map (fun a => Z.of_N (N_of_ascii a)) (list_ascii_of_string s).

Fixpoint str_eqb (a b : str) : bool :=
  match a, b with
  | [], [] => true
  | x :: a', y :: b' => (x =? y) && str_eqb a' b'
  | _, _ => false
  end.

(** [s.startswith(p)] *)
Fixpoint startswith (p s : str) : bool :=
  match p, s with
  | [], _ => true
  | x :: p', y :: s' => (x =? y) && startswith p' s'
  | _ :: _, [] => false
  end.

(** [p in s] for strings: substring search. *)
Fixpoint contains (p s : str) : bool :=
  startswith p s ||
  match s with
  | [] => false
  | _ :: s' => contains p s'
  end.

(** [str.isspace] on one character, the table of CPython's
    [_PyUnicode_IsWhitespace]. *)
Definition isspace (c : Z) : bool :=
  ((9 <=? c) && (c <=? 13)) || ((28 <=? c) && (c <=? 32))
  || (c =? 133) || (c =? 160) || (c =? 5760)
  || ((8192 <=? c) && (c <=? 8202))
  || (c =? 8232) || (c =? 8233) || (c =? 8239) || (c =? 8287)
  || (c =? 12288).

Fixpoint lstrip (s : str) : str :=
  match s with
  | c :: s' => if isspace c then lstrip s' else s
  | [] => []
  end.

Definition rstrip (s : str) : str := rev (lstrip (rev s)).

(** [s.strip()] *)
Definition strip (s : str) : str := rstrip (lstrip s).

(** Line boundaries recognised by [str.splitlines]. *)
Definition islinebreak (c : Z) : bool :=
  ((10 <=? c) && (c <=? 13)) || ((28 <=? c) && (c <=? 30))
  || (c =? 133) || (c =? 8232) || (c =? 8233).

(** [s.splitlines()]: [cur] is the line being read, reversed.  A carriage
    return followed by a line feed is one boundary; text after the last
    boundary is a line only when it is non-empty. *)
Fixpoint splitlines_from (cur : str) (s : str) : list str :=
  match s with
  | [] => match cur with [] => [] | _ => [rev cur] end
  | c :: s' =>
      if c =? 13 then
        match s' with
        | 10 :: s'' => rev cur :: splitlines_from [] s''
        | _ => rev cur :: splitlines_from [] s'
        end
      else if islinebreak c then rev cur :: splitlines_from [] s'
      else splitlines_from (c :: cur) s'
  end.

Definition splitlines (s : str) : list str := splitlines_from [] s.

(** [s.split()] without arguments: maximal runs of non-whitespace. *)
Fixpoint split_ws_from (cur : str) (s : str) : list str :=
  match s with
  | [] => match cur with [] => [] | _ => [rev cur] end
  | c :: s' =>
      if isspace c then
        match cur with
        | [] => split_ws_from [] s'
        | _ => rev cur :: split_ws_from [] s'
        end
      else split_ws_from (c :: cur) s'
  end.

Definition split_ws (s : str) : list str := split_ws_from [] s.

(** [s.split(sep)] for a one-character separator: never the empty list. *)
Fixpoint split_on_from (sep : Z) (cur : str) (s : str) : list str :=
  match s with
  | [] => [rev cur]
  | c :: s' =>
      if c =? sep then rev cur :: split_on_from sep [] s'
      else split_on_from sep (c :: cur) s'
  end.

Definition split_on (sep : Z) (s : str) : list str := split_on_from sep [] s.

(** [str(n)] for an integer. *)
Definition str_of_int (n : Z) : str :=
  lit (DecimalString.NilZero.string_of_int (Z.to_int n)).

(** Lower-case hexadecimal digits of a natural number, as [format(n, "x")]. *)
Definition hex_digits (n : N) : str :=
  lit (HexadecimalString.NilZero.string_of_uint (N.to_hex_uint n)).

(** [format(n, "#0wx")]: sign, then ["0x"], then the digits padded with
    zeros on the left until the whole text is [w] characters wide. *)
Definition format_alt_hex (w : nat) (n : Z) : str :=
  let sign := if n <? 0 then lit "-" else [] in
  let digits := hex_digits (Z.abs_N n) in
  let used := (List.length sign + 2 + List.length digits)%nat in
  sign ++ lit "0x" ++ repeat 48 (w - used) ++ digits.

Definition ishexdigit (c : Z) : bool :=
  ((48 <=? c) && (c <=? 57)) || ((97 <=? c) && (c <=? 102)).

(** [unicodedata.category(c) == "Cc"]: the C0 and C1 controls. *)
Definition category_is_Cc (c : Z) : bool :=
  ((0 <=? c) && (c <=? 31)) || ((127 <=? c) && (c <=? 159)).

(** Values stored in the fields of a record: text, integers, [None]. *)
Inductive pyval : Type :=
| VStr (s : str)
| VInt (n : Z)
| VNone.

(** Truth value of an integer that may be [None]: [None] and [0] are false. *)
Definition truthy (v : option Z) : bool :=
  match v with
  | Some n => negb (n =? 0)
  | None => false
  end.

(** Exceptions the modelled code raises or receives.  All of them derive
    from [Exception], so an [except Exception] clause catches each one. *)
Inductive exn : Type :=
| ValueError (msg : string)
| TypeError
| IndexError
| AttributeError
| OSError
| CalledProcessError
| ArgumentError.

Inductive res (A : Type) : Type :=
| Ok (a : A)
| Raise (e : exn).
Arguments Ok {A} a.
Arguments Raise {A} e.

(** Computations over a state [S] that return or raise. *)
Definition M (S A : Type) : Type := S -> res A * S.

Definition ret {S A} (a : A) : M S A := fun s => (Ok a, s).

Definition raise {S A} (e : exn) : M S A := fun s => (Raise e, s).

Definition bind {S A B} (m : M S A) (k : A -> M S B) : M S B :=
  fun s =>
    match m s with
    | (Ok a, s') => k a s'
    | (Raise e, s') => (Raise e, s')
    end.

Definition lift {S A} (r : res A) : M S A := fun s => (r, s).

Definition modify {S} (f : S -> S) : M S unit := fun s => (Ok tt, f s).

(** [try: body / except Exception: handler] *)
Definition try_except {S A} (body : M S A) (handler : exn -> M S A) : M S A :=
  fun s =>
    match body s with
    | (Ok a, s') => (Ok a, s')
    | (Raise e, s') => handler e s'
    end.

(** [try: body / finally: fin]: the clean-up runs on both exits and the
    outcome of the body is kept unless the clean-up itself raises. *)
Definition try_finally {S A} (body : M S A) (fin : M S unit) : M S A :=
  fun s =>
    let '(r, s') := body s in
    match fin s' with
    | (Ok _, s'') => (r, s'')
    | (Raise e, s'') => (Raise e, s'')
    end.

(** The same for code that touches no state. *)
Definition rbind {A B} (r : res A) (k : A -> res B) : res B :=
  match r with
  | Ok a => k a
  | Raise e => Raise e
  end.

(** [try/except Exception] for code that touches no state. *)
Definition rcatch {A} (r : res A) (handler : exn -> res A) : res A :=
  match r with
  | Ok a => Ok a
  | Raise e => handler e
  end.

(** [xs[-k]] for [k >= 1]: [IndexError] when the list is too short. *)
Definition item_from_end {A} (xs : list A) (k : nat) : res A :=
  match nth_error (rev xs) (k - 1) with
  | Some x => Ok x
  | None => Raise IndexError
  end.

End Py.

Declare Scope py_scope.
Delimit Scope py_scope with py.
Notation "x <- m ;; k" := (Py.bind m (fun x => k))
  (at level 61, m at next level, right associativity) : py_scope.
Notation "m ;;; k" := (Py.bind m (fun _ => k))
  (at level 61, right associativity) : py_scope.
Notation "x <~ r ;; k" := (Py.rbind r (fun x => k))
  (at level 61, r at next level, right associativity) : py_scope.

Local Open Scope py_scope.

(* ===================================================================== *)
(** * ctypes: results, arguments and buffers                             *)
(* ===================================================================== *)

Module Ctypes.
Import Py.

(** A foreign function whose [restype] is [c_void_p] (and so [HWND],
    [HANDLE], [HKL] of [wintypes]) hands a null pointer back as [None] and
    any other pointer as an integer. *)
Definition restype_c_void_p (raw : Z) : option Z :=
  if raw =? 0 then None else Some raw.

(** The other way round, for an argument declared [c_void_p]. *)
Definition argtype_c_void_p (v : option Z) : Z :=
  match v with
  | Some p => p
  | None => 0
  end.

(** The C [int] an integer is cut down to. *)
Definition wrap_c_int (x : Z) : Z := (x + 2 ^ 31) mod 2 ^ 32 - 2 ^ 31.

(** An integer handed to a foreign function that declares no [argtypes]
    is passed as a C [int]: it is first read as an unsigned [long], or as
    a [long] when that fails, then cut down to [int]; an integer that fits
    neither is refused with [ctypes.ArgumentError].  [long_bytes] is
    [sizeof(c_long)], 4 on Windows. *)
Definition argtype_default_int (long_bytes : Z) (v : Z) : res Z :=
  let bits := 8 * long_bytes in
  if ((0 <=? v) && (v <? 2 ^ bits))
     || ((- 2 ^ (bits - 1) <=? v) && (v <? 0))
  then Ok (wrap_c_int v)
  else Raise ArgumentError.

(** What a callee that expects a pointer-sized handle reads from a C
    [int] argument: its sign extension.  [ptr_bytes] is
    [sizeof(c_void_p)]. *)
Definition c_int_as_pointer (ptr_bytes : Z) (i : Z) : Z :=
  i mod 2 ^ (8 * ptr_bytes).

(** [v & mask] where [v] may be [None]: the operator is not defined on
    [None] and raises [TypeError]. *)
Definition int_and (v : option Z) (mask : Z) : res Z :=
  match v with
  | Some n => Ok (Z.land n mask)
  | None => Raise TypeError
  end.

(** [x or d] on integers. *)
Definition int_or (x d : Z) : Z := if x =? 0 then d else x.

(** [create_unicode_buffer(n)]: [n] wide characters, all zero. *)
Definition create_unicode_buffer (n : nat) : list Z := repeat 0 n.

(** What a callee that was told the capacity leaves in the buffer after
    writing [units] from its start: nothing lands past the end. *)
Definition poke (buf units : list Z) : list Z :=
  firstn (List.length buf) units ++ skipn (List.length units) buf.

(** [buf.value]: the text up to the first NUL, or the whole buffer. *)
Fixpoint value (buf : list Z) : str :=
  match buf with
  | [] => []
  | c :: buf' => if c =? 0 then [] else c :: value buf'
  end.

End Ctypes.

(* ===================================================================== *)
(** * models/key_model.py                                                *)
(* ===================================================================== *)

Module KeyModel.
Import Py.

(** The frozen dataclass [Key]: seven fields, none with a default. *)
Record Key : Type := mkKey {
  session_id : pyval;
  key_name : pyval;
  event : pyval;
  timestamp : pyval;
  scan_code : pyval;
  keyboard_layout : pyval;
  active_window : pyval
}.

(** The generated [__init__]: seven required positional parameters, bound
    in declaration order; any other number of arguments is a [TypeError].
    Annotations are not checked when the program runs. *)
Definition Key__init__ (args : list pyval) : res Key :=
  match args with
  | [a1; a2; a3; a4; a5; a6; a7] => Ok (mkKey a1 a2 a3 a4 a5 a6 a7)
  | _ => Raise TypeError
  end.

End KeyModel.

(* ===================================================================== *)
(** * data_collection/keyboard/key_controller.py                         *)
(* ===================================================================== *)

Module KeyController.
Import Py Ctypes KeyModel.

(** Answers of User32 and Kernel32, of the clock and of [os.path], as the
    code receives them, with the two sizes of the platform that ctypes'
    conversions depend on.  Pointers and handles are raw integers here; the
    conversions ctypes applies are written out at each call.  A callee that
    fills a buffer is given as the pair of its return value and the
    characters it writes. *)
Record WinAPI : Type := {
  GetForegroundWindow : Z;
  GetWindowThreadProcessId : Z -> Z * Z;          (* hwnd -> (tid, pid) *)
  GetKeyboardLayout : Z -> Z;                     (* tid -> hkl *)
  LCIDToLocaleName : Z -> Z -> Z -> Z * list Z;   (* lcid, size, flags *)
  OpenProcess : Z -> bool -> Z -> Z;              (* access, inherit, pid *)
  QueryFullProcessImageNameW : Z -> Z -> Z -> Z * list Z;
                                                  (* handle, flags, size *)
  MapVirtualKeyExW : Z -> Z -> Z -> Z;            (* code, mode, hkl *)
  MapVirtualKeyW : Z -> Z -> Z;                   (* code, mode *)
  GetKeyboardState : Z * list Z;                  (* ok, 256 bytes *)
  ToUnicodeEx : Z -> Z -> list Z -> Z -> Z -> Z -> Z * list Z;
                              (* vk, scan, state, size, flags, hkl *)
  time_ns : Z;
  os_path_basename : str -> str;
  sizeof_c_long : Z;                              (* bytes *)
  sizeof_c_void_p : Z                             (* bytes *)
}.

(** The event handed over by the keyboard hook. *)
Record KeyboardEvent : Type := {
  name : str;
  event_type : str;
  ev_scan_code : option Z
}.

(** Process handles currently open. *)
Definition handles := list Z.

Fixpoint remove_handle (h : Z) (hs : handles) : handles :=
  match hs with
  | [] => []
  | x :: hs' => if x =? h then hs' else x :: remove_handle h hs'
  end.

Section Controller.
Variable api : WinAPI.

(** [KeyController.get_language] *)
Definition get_language : res str :=
  let hwnd := restype_c_void_p (GetForegroundWindow api) in
  let '(tid, _) := GetWindowThreadProcessId api (argtype_c_void_p hwnd) in
  let hkl := restype_c_void_p (GetKeyboardLayout api tid) in
  lang_id <~ int_and hkl 65535 ;;
  let buf := create_unicode_buffer 85 in
  let '(ok, chars) := LCIDToLocaleName api lang_id (Z.of_nat (List.length buf)) 0 in
  let buf := poke buf chars in
  let locale_name :=
    if negb (ok =? 0) then value buf
    else lit "LANGID_" ++ format_alt_hex 6 lang_id in
  Ok locale_name.

(** [kernel32.OpenProcess]: a non-null result is a handle that stays open
    until it is closed. *)
Definition open_process (access : Z) (inherit : bool) (pid : Z)
  : M handles (option Z) :=
  fun hs =>
    let raw := OpenProcess api access inherit pid in
    (Ok (restype_c_void_p raw), if raw =? 0 then hs else raw :: hs).

(** [kernel32.CloseHandle(hproc)].  No [argtypes] is declared for it, so
    the handle, an integer, travels as a C [int]; the handle that is closed
    is the one the callee reads from that [int].  [None] travels as a null
    pointer. *)
Definition close_handle (h : option Z) : M handles unit :=
  match h with
  | Some v =>
      i <- lift (argtype_default_int (sizeof_c_long api) v) ;;
      modify (remove_handle (c_int_as_pointer (sizeof_c_void_p api) i))
  | None => modify (remove_handle 0)
  end.

Definition PROCESS_QUERY_LIMITED_INFORMATION : Z := 4096.

(** [KeyController.get_process_name] *)
Definition get_process_name : M handles str :=
  let hwnd := restype_c_void_p (GetForegroundWindow api) in
  if negb (truthy hwnd) then ret (lit "unknown.exe")
  else
    let '(_, pid) := GetWindowThreadProcessId api (argtype_c_void_p hwnd) in
    hproc <- open_process PROCESS_QUERY_LIMITED_INFORMATION false pid ;;
    if negb (truthy hproc) then ret (lit "unknown.exe")
    else
      try_finally
        (let buf := create_unicode_buffer 260 in
         let size := Z.of_nat (List.length buf) in
         let '(ok, chars) :=
           QueryFullProcessImageNameW api (argtype_c_void_p hproc) 0 size in
         let buf := poke buf chars in
         ret (if negb (ok =? 0) then os_path_basename api (value buf)
              else lit "unknown.exe"))
        (close_handle hproc).

Definition MAPVK_VSC_TO_VK_EX : Z := 3.
Definition MAPVK_VSC_TO_VK : Z := 1.

(** [KeyController.map_scancode_to_char].  The guard [not scan_code]
    holds for [None] and for [0]. *)
Definition map_scancode_to_char (scan_code : option Z) : res str :=
  match scan_code with
  | None => Raise (ValueError "Scan code needed")
  | Some sc =>
      if negb (truthy (Some sc)) then Raise (ValueError "Scan code needed")
      else
        let hwnd := restype_c_void_p (GetForegroundWindow api) in
        if negb (truthy hwnd)
        then Raise (ValueError "Unknown or no foreground window")
        else
          let tid :=
            fst (GetWindowThreadProcessId api (argtype_c_void_p hwnd)) in
          let hkl := restype_c_void_p (GetKeyboardLayout api tid) in
          let vk :=
            int_or (MapVirtualKeyExW api sc MAPVK_VSC_TO_VK_EX
                                     (argtype_c_void_p hkl)) 0 in
          let vk :=
            if vk =? 0 then int_or (MapVirtualKeyW api sc MAPVK_VSC_TO_VK) 0
            else vk in
          if vk =? 0 then Ok []
          else
            let '(ok, key_state) := GetKeyboardState api in
            if ok =? 0 then Raise (ValueError "Unknown keyboard state")
            else
              let buf := create_unicode_buffer 8 in
              let '(r, chars) :=
                ToUnicodeEx api vk sc key_state (Z.of_nat (List.length buf)) 0
                            (argtype_c_void_p hkl) in
              let buf := poke buf chars in
              if 0 <? r then Ok (value buf) else Ok []
  end.

(** The test that sends [build_key] back to the symbolic name: nothing
    left after trimming, or a single control character. *)
Definition needs_symbolic_name (key_name : str) : bool :=
  match key_name with
  | [] => true
  | [c] => category_is_Cc c
  | _ => false
  end.

Definition value_of_int (v : option Z) : pyval :=
  match v with
  | Some n => VInt n
  | None => VNone
  end.

(** [KeyController.build_key] *)
Definition build_key (key : KeyboardEvent) : M handles Key :=
  let scan_code := ev_scan_code key in
  translated <- lift (map_scancode_to_char scan_code) ;;
  let key_name := strip translated in
  let key_name := if needs_symbolic_name key_name then name key else key_name in
  let event := event_type key in
  let timestamp := time_ns api in
  keyboard_layout <- lift get_language ;;
  active_window <- get_process_name ;;
  lift (Key__init__ [VStr key_name; VStr event; VInt timestamp;
                     value_of_int scan_code; VStr keyboard_layout;
                     VStr active_window]).

End Controller.

End KeyController.

(* ===================================================================== *)
(** * system_info.py                                                     *)
(* ===================================================================== *)

Module SystemInfo.
Import Py.

(** What the host answers: the platform tag, the registry, the file
    system, child processes, the hardware address probes and entropy source
    used by [uuid.getnode], and the account queries; with them the encoder
    [json.dumps] of the standard library, as called by [to_json].  A call
    that fails is an answer [Raise e]. *)
Record Host : Type := {
  sys_platform : str;
  winreg_MachineGuid : res str;
    (* OpenKey(HKEY_LOCAL_MACHINE, SOFTWARE\Microsoft\Cryptography), then
       QueryValueEx(key, MachineGuid), the value as formatted text *)
  open_read : str -> res str;                   (* open(p, "r").read() *)
  check_output : list str -> bool -> res str;   (* command, shell *)
  uuid_hardware_node : option Z;
  randbits48 : nat -> Z;                        (* the n-th draw *)
  os_getuid : res Z;
  socket_gethostname : res str;
  getpass_getuser : res str;
  json_dumps : list (str * str) -> str
}.

(** The instance attributes set by [__init__]. *)
Record SystemInfo : Type := mkSystemInfo {
  __device_id : str;
  __account_id : str;
  __device_name : str;
  __username : str;
  __platform : str
}.

(** State of the running process: the memo [uuid._node], the number of
    random draws made so far, and the [SystemInfo] objects created, each
    known by its position. *)
Record process : Type := mkProcess {
  uuid_node : option Z;
  draws : nat;
  objects : list SystemInfo
}.

Section Resolver.
Variable host : Host.

(** [uuid.getnode] of the standard library: the first call settles on a
    hardware address or, failing that, on a random 48-bit number with the
    multicast bit set, and remembers it in [_node]; later calls return what
    was remembered. *)
Definition getnode : M process Z :=
  fun p =>
    match uuid_node p with
    | Some n => (Ok n, p)
    | None =>
        match uuid_hardware_node host with
        | Some n => (Ok n, mkProcess (Some n) (draws p) (objects p))
        | None =>
            let n := Z.lor (randbits48 host (draws p)) (Z.shiftl 1 40) in
            (Ok n, mkProcess (Some n) (S (draws p)) (objects p))
        end
    end.

(** The loop over the two machine-id files of the Linux branch. *)
Fixpoint machine_id_from (paths : list str) : M process (option str) :=
  match paths with
  | [] => ret None
  | p :: rest =>
      r <- try_except
             (text <- lift (open_read host p) ;;
              ret (Some (lit "linux:" ++ strip text)))
             (fun _ => ret None) ;;
      match r with
      | Some s => ret (Some s)
      | None => machine_id_from rest
      end
  end.

(** The loop over the lines printed by [ioreg] in the macOS branch. *)
Fixpoint platform_uuid_from (lines : list str) : res (option str) :=
  match lines with
  | [] => Ok None
  | line :: rest =>
      if contains (lit "IOPlatformUUID") line
      then field <~ item_from_end (split_on 34 line) 2 ;;
           Ok (Some (lit "mac:" ++ field))
      else platform_uuid_from rest
  end.

(** The platform-specific part of [_get_device_id]: [Some s] when a branch
    returned [s], [None] when control reaches the last statement. *)
Definition device_id_branch : M process (option str) :=
  if startswith (lit "win") (sys_platform host) then
    try_except
      (v <- lift (winreg_MachineGuid host) ;;
       ret (Some (lit "win:" ++ v)))
      (fun _ => ret None)
  else if startswith (lit "linux") (sys_platform host) then
    machine_id_from [lit "/etc/machine-id"; lit "/var/lib/dbus/machine-id"]
  else if str_eqb (sys_platform host) (lit "darwin") then
    try_except
      (out <- lift (check_output host
                      [lit "ioreg"; lit "-rd1"; lit "-c";
                       lit "IOPlatformExpertDevice"] false) ;;
       lift (platform_uuid_from (splitlines out)))
      (fun _ => ret None)
  else ret None.

(** [SystemInfo._get_device_id] *)
Definition _get_device_id : M process str :=
  found <- device_id_branch ;;
  match found with
  | Some s => ret s
  | None => node <- getnode ;; ret (lit "fb_mac:" ++ str_of_int node)
  end.

(** The first loop of the Windows branch of [_get_account_id]. *)
Fixpoint sid_line_from (lines : list str) : option str :=
  match lines with
  | [] => None
  | line :: rest =>
      let line := strip line in
      if startswith (lit "S-1-") line then Some (lit "sid:" ++ line)
      else sid_line_from rest
  end.

(** [SystemInfo._get_account_id] *)
Definition _get_account_id : res str :=
  if startswith (lit "win") (sys_platform host) then
    out <~ check_output host [lit "whoami"; lit "/user"] true ;;
    match sid_line_from (splitlines out) with
    | Some s => Ok s
    | None =>
        let parts := filter (startswith (lit "S-1-")) (split_ws out) in
        match parts with
        | [] => Ok (lit "sid:unknown")
        | _ :: _ => s <~ item_from_end parts 1 ;; Ok (lit "sid:" ++ s)
        end
    end
  else
    rcatch (uid <~ os_getuid host ;; Ok (lit "uid:" ++ str_of_int uid))
           (fun _ => Ok (lit "uid:unknown")).

(** [SystemInfo.__init__] *)
Definition __init__ : M process SystemInfo :=
  device_id <- _get_device_id ;;
  account_id <- lift _get_account_id ;;
  device_name <- lift (socket_gethostname host) ;;
  username <- lift (getpass_getuser host) ;;
  ret (mkSystemInfo device_id account_id device_name username
                    (sys_platform host)).

(** [SystemInfo()]: run [__init__] and keep the new object; the reference
    returned is its position among the objects of the process. *)
Definition new : M process nat :=
  self <- __init__ ;;
  fun p =>
    (Ok (List.length (objects p)),
     mkProcess (uuid_node p) (draws p) (objects p ++ [self])).

(** Attribute access on a reference. *)
Definition deref (self : nat) : M process SystemInfo :=
  fun p =>
    match nth_error (objects p) self with
    | Some o => (Ok o, p)
    | None => (Raise AttributeError, p)
    end.

(** The read-only properties. *)
Definition device_id (self : nat) : M process str :=
  o <- deref self ;; ret (__device_id o).

Definition account_id (self : nat) : M process str :=
  o <- deref self ;; ret (__account_id o).

Definition device_name (self : nat) : M process str :=
  o <- deref self ;; ret (__device_name o).

Definition username (self : nat) : M process str :=
  o <- deref self ;; ret (__username o).

(** [SystemInfo.to_dict] *)
Definition to_dict (self : nat) : M process (list (str * str)) :=
  d <- device_id self ;;
  a <- account_id self ;;
  n <- device_name self ;;
  u <- username self ;;
  o <- deref self ;;
  ret [(lit "device_id", d); (lit "account_id", a); (lit "device_name", n);
       (lit "username", u); (lit "platform", __platform o)].

(** [SystemInfo.to_json] *)
Definition to_json (self : nat) : M process str :=
  d <- to_dict self ;; ret (json_dumps host d).

(** The four properties declare a getter only: assigning to one of them
    raises [AttributeError] and stores nothing. *)
Inductive property : Type :=
| P_device_id | P_account_id | P_device_name | P_username.

Definition set_property (self : nat) (p : property) (v : str)
  : M process unit :=
  _ <- deref self ;; raise AttributeError.

End Resolver.

(** The attribute behind each property. *)
Definition field (q : property) (o : SystemInfo) : str :=
  match q with
  | P_device_id => __device_id o
  | P_account_id => __account_id o
  | P_device_name => __device_name o
  | P_username => __username o
  end.

Definition getter (p : property) : nat -> M process str :=
  match p with
  | P_device_id => device_id
  | P_account_id => account_id
  | P_device_name => device_name
  | P_username => username
  end.

(** What client code can do with the class; a construction or a
    serialisation is made under the answers the host gives at that
    moment. *)
Inductive call : Type :=
| Construct (now : Host)
| Get (self : nat) (p : property)
| ToDict (self : nat)
| ToJson (now : Host) (self : nat)
| Assign (self : nat) (p : property) (v : str).

(** The process after one call; whether the call returned or raised is of
    no interest here. *)
Definition after (c : call) (p : process) : process :=
  match c with
  | Construct now => snd (new now p)
  | Get self q => snd (getter q self p)
  | ToDict self => snd (to_dict self p)
  | ToJson now self => snd (to_json now self p)
  | Assign self q v => snd (set_property self q v p)
  end.

Definition after_all (cs : list call) (p : process) : process :=
  fold_left (fun p c => after c p) cs p.

End SystemInfo.

(* ===================================================================== *)
(** * Vocabulary of the properties                                       *)
(* ===================================================================== *)

Module Props.
Import Py Ctypes KeyModel KeyController.

(** The layout handle [map_scancode_to_char] works with: the one of the
    thread that owns the foreground window. *)
Definition layout_of (api : WinAPI) : Z :=
  GetKeyboardLayout api
    (fst (GetWindowThreadProcessId api (GetForegroundWindow api))).

(** Virtual key of a scan code: the layout-aware mapping, and the
    layout-agnostic one when the first gives zero. *)
Definition virtual_key (api : WinAPI) (sc : Z) : Z :=
  let aware := MapVirtualKeyExW api sc 3 (layout_of api) in
  if aware =? 0 then MapVirtualKeyW api sc 1 else aware.

(** Result of character composition for a scan code: the return value and
    the code units produced. *)
Definition composition (api : WinAPI) (sc : Z) : Z * list Z :=
  ToUnicodeEx api (virtual_key api sc) sc (snd (GetKeyboardState api)) 8 0
              (layout_of api).

(** Number of tags of [tags] that [s] begins with. *)
Definition tags_matching (tags : list str) (s : str) : nat :=
  List.length (filter (fun t => startswith t s) tags).

Definition device_tags : list str :=
  [lit "win:"; lit "linux:"; lit "mac:"; lit "fb_mac:"].

(** ["LANGID_0x"] followed by exactly four hexadecimal digits. *)
Definition is_langid_diagnostic (s : str) : bool :=
  startswith (lit "LANGID_0x") s
  && (List.length s =? 13)%nat
  && forallb ishexdigit (skipn 9 s).

(** The failures the pipeline is said to be limited to, read on the
    environment: a scan code that is zero or absent, a keyboard state that
    cannot be read. *)
Definition invalid_input (key : KeyboardEvent) : Prop :=
  truthy (ev_scan_code key) = false.

Definition unreadable_state (api : WinAPI) : Prop :=
  fst (GetKeyboardState api) = 0.

(** [P] holds at [k], [k + 1], ..., [fuel] integers in all. *)
Fixpoint holds_from (P : Z -> bool) (k : Z) (fuel : nat) : bool :=
  match fuel with
  | O => true
  | S fuel' => P k && holds_from P (k + 1) fuel'
  end.

(** The handle [get_process_name] is given for the process that owns the
    foreground window. *)
Definition process_handle (api : WinAPI) : Z :=
  OpenProcess api PROCESS_QUERY_LIMITED_INFORMATION false
    (snd (GetWindowThreadProcessId api (GetForegroundWindow api))).

(** A handle that reaches [CloseHandle] as it was given: it fits a C
    [int], on a platform whose [long] and pointers have at least four
    bytes. *)
Definition passes_as_c_int (api : WinAPI) (h : Z) : Prop :=
  4 <= sizeof_c_long api /\ 4 <= sizeof_c_void_p api /\ 0 <= h < 2 ^ 31.


(** "The pipeline can only fail on the two fatal conditions." *)
Definition fails_only_on_fatal_conditions
           (api : WinAPI) (key : KeyboardEvent) : Prop :=
  forall hs e hs',
    build_key api key hs = (Raise e, hs') ->
    invalid_input key \/ unreadable_state api.

End Props.

(* ===================================================================== *)
(** * Sample environments                                                *)
(* ===================================================================== *)

Module Samples.
Import Py Ctypes KeyModel KeyController.

(** Text after the last backslash or slash; stands in for
    [os.path.basename] in the sample environments. *)
Definition after_last_separator (p : str) : str :=
  rev ((fix upto (s : str) : str :=
          match s with
          | [] => []
          | c :: s' => if (c =? 92) || (c =? 47) then [] else c :: upto s'
          end) (rev p)).

(** A desktop: [hwnd] is the foreground window (0 for none), [hkl] the
    layout of its thread; thread 0 stands for the calling thread, whose
    layout is en-US.  Scan code 30 is the key labelled A, 26 a dead key,
    42 the left shift key. *)
Definition desktop (hwnd hkl kbd_ok : Z) : WinAPI := {|
  GetForegroundWindow := hwnd;
  GetWindowThreadProcessId := fun w => if w =? 0 then (0, 0) else (7, 4242);
  GetKeyboardLayout := fun tid => if tid =? 0 then 67699721 else hkl;
  LCIDToLocaleName := fun lcid _ _ =>
    if lcid =? 1033 then (6, lit "en-US") else (0, []);
  OpenProcess := fun _ _ pid => if pid =? 4242 then 420 else 0;
  QueryFullProcessImageNameW := fun h _ _ =>
    if h =? 420 then (1, [67; 58; 92] ++ lit "Windows" ++ [92] ++ lit "notepad.exe")
    else (0, []);
  MapVirtualKeyExW := fun sc _ _ =>
    if sc =? 30 then 65 else if sc =? 26 then 221
    else if sc =? 42 then 160 else 0;
  MapVirtualKeyW := fun sc _ => if sc =? 42 then 16 else 0;
  GetKeyboardState := (kbd_ok, repeat 0 256);
  ToUnicodeEx := fun vk _ _ _ _ _ =>
    if vk =? 65 then (1, [97]) else if vk =? 221 then (-1, [180]) else (0, []);
  time_ns := 1700000000000000000;
  os_path_basename := after_last_separator;
  sizeof_c_long := 4;
  sizeof_c_void_p := 8
|}.

(** A window has focus, its thread types en-US. *)
Definition focused_enUS : WinAPI := desktop 132868 67699721 1.

(** No window has focus; the other queries still answer. *)
Definition no_focus : WinAPI := desktop 0 67699721 1.

(** A window has focus but its thread has no layout
    ([GetKeyboardLayout] answers null). *)
Definition no_layout : WinAPI := desktop 132868 0 1.

(** A window has focus, the keyboard state cannot be read. *)
Definition no_keyboard_state : WinAPI := desktop 132868 67699721 0.

(** A composition facility that produces ten units for every key. *)
Definition long_composition : WinAPI := {|
  GetForegroundWindow := 132868;
  GetWindowThreadProcessId := fun _ => (7, 4242);
  GetKeyboardLayout := fun _ => 67699721;
  LCIDToLocaleName := fun _ _ _ => (0, []);
  OpenProcess := fun _ _ _ => 0;
  QueryFullProcessImageNameW := fun _ _ _ => (0, []);
  MapVirtualKeyExW := fun _ _ _ => 65;
  MapVirtualKeyW := fun _ _ => 0;
  GetKeyboardState := (1, repeat 0 256);
  ToUnicodeEx := fun _ _ _ _ _ _ => (10, repeat 97 10);
  time_ns := 0;
  os_path_basename := after_last_separator;
  sizeof_c_long := 4;
  sizeof_c_void_p := 8
|}.

Definition a_down : KeyboardEvent :=
  {| name := lit "a"; event_type := lit "DOWN"; ev_scan_code := Some 30 |}.

Definition zero_down : KeyboardEvent :=
  {| name := lit "unknown"; event_type := lit "DOWN"; ev_scan_code := Some 0 |}.

Import SystemInfo.

(** A host on [platform]; [whoami] is what the account query answers. *)
Definition machine (platform : str) (whoami : res str)
                   (node : option Z) : Host := {|
  sys_platform := platform;
  winreg_MachineGuid := Ok (lit "0f8fad5b-d9cb-469f-a165-70867728950e");
  open_read := fun p =>
    if str_eqb p (lit "/etc/machine-id")
    then Ok (lit "4c4c4544003957108052b4c04f384833" ++ [10])
    else Raise OSError;
  check_output := fun cmd _ =>
    match cmd with
    | c :: _ => if str_eqb c (lit "whoami") then whoami else Raise OSError
    | [] => Raise OSError
    end;
  uuid_hardware_node := node;
  randbits48 := fun n => 1000 + Z.of_nat n;
  os_getuid := Ok 1000;
  socket_gethostname := Ok (lit "workstation");
  getpass_getuser := Ok (lit "olena");
  json_dumps := fun _ => lit "{}"
|}.

(** Windows, the account query exits with an error status. *)
Definition windows_whoami_fails : Host :=
  machine (lit "win32") (Raise CalledProcessError) (Some 1).

(** A platform without machine identifier and without hardware address:
    the node is drawn at random. *)
Definition bsd_no_hardware : Host :=
  machine (lit "freebsd14") (Raise OSError) None.

Definition fresh_process : process := mkProcess None 0 [].

End Samples.

(* ===================================================================== *)
(** * key_controller.py: the window title and the event handler          *)
(* ===================================================================== *)

Module KeyControllerRest.
Import Py Ctypes KeyModel KeyController.

(** The two User32 entry points only [get_wnd_title] calls. *)
Record WindowText : Type := {
  GetWindowTextLengthW : Z -> Z;                (* hwnd *)
  GetWindowTextW : Z -> Z -> Z * list Z         (* hwnd, size *)
}.

(** [KeyController.get_wnd_title] *)
Definition get_wnd_title (api : WinAPI) (txt : WindowText) : str :=
  let hwnd := restype_c_void_p (GetForegroundWindow api) in
  let title := lit "no title" in
  if truthy hwnd then
    let title_len := GetWindowTextLengthW txt (argtype_c_void_p hwnd) in
    if 0 <? title_len then
      let title_len := title_len + 1 in
      let buf := create_unicode_buffer (Z.to_nat title_len) in
      let '(copied, chars) :=
        GetWindowTextW txt (argtype_c_void_p hwnd) title_len in
      let buf := poke buf chars in
      if negb (copied =? 0) then value buf else title
    else title
  else title.

(** What [handle_event] works on: the open handles and the records
    printed so far. *)
Record console : Type := mkConsole {
  open_handles : handles;
  printed : list Key
}.

(** [KeyController.handle_event]: build the record, then print it. *)
Definition handle_event (api : WinAPI) (event : KeyboardEvent)
  : M console unit :=
  fun c =>
    match build_key api event (open_handles c) with
    | (Ok key_obj, hs) => (Ok tt, mkConsole hs (printed c ++ [key_obj]))
    | (Raise e, hs) => (Raise e, mkConsole hs (printed c))
    end.

End KeyControllerRest.

(* ===================================================================== *)
(** * Reading identifiers back                                           *)
(* ===================================================================== *)

Module Readers.
Import Py Props SystemInfo.

(** Text of byte-sized characters back to a [string]. *)
Definition unlit (s : str) : string :=
  string_of_list_ascii (map (fun c => ascii_of_N (Z.to_N c)) s).

(** [int(s)] for the decimal text of an integer. *)
Definition int_of_str (s : str) : option Z :=
  option_map Z.of_int (DecimalString.NilZero.int_of_string (unlit s)).

Definition isdigit (c : Z) : bool := (48 <=? c) && (c <=? 57).

(** Value of one lower-case hexadecimal digit. *)
Definition hex_digit_value (c : Z) : option Z :=
  if (48 <=? c) && (c <=? 57) then Some (c - 48)
  else if (97 <=? c) && (c <=? 102) then Some (c - 87)
  else None.

(** [int(s, 16)] for a run of lower-case hexadecimal digits, most
    significant first; [acc] is the value read so far. *)
Fixpoint hex_value_from (acc : Z) (s : str) : option Z :=
  match s with
  | [] => Some acc
  | c :: s' =>
      match hex_digit_value c with
      | Some d => hex_value_from (16 * acc + d) s'
      | None => None
      end
  end.

(** The identifier written in a diagnostic layout text. *)
Definition langid_of_diagnostic (s : str) : option Z :=
  if startswith (lit "LANGID_0x") s then hex_value_from 0 (skipn 9 s)
  else None.

(** The command line of the macOS branch of [_get_device_id]. *)
Definition ioreg_command : list str :=
  [lit "ioreg"; lit "-rd1"; lit "-c"; lit "IOPlatformExpertDevice"].

(** A snapshot whose identifiers carry their source tags. *)
Definition well_tagged (o : SystemInfo) : bool :=
  (tags_matching device_tags (__device_id o) =? 1)%nat
  && (startswith (lit "sid:") (__account_id o)
      || startswith (lit "uid:") (__account_id o)).

(** No character of [s] is a line boundary. *)
Definition single_line (s : str) : bool :=
  forallb (fun c => negb (islinebreak c)) s.

(** The last character of [s], if any, is not white space. *)
Definition no_trailing_space (s : str) : bool :=
  match rev s with
  | [] => true
  | c :: _ => negb (isspace c)
  end.

End Readers.

(* ===================================================================== *)
(** * More sample desktops                                               *)
(* ===================================================================== *)

Module MoreDesktops.
Import Py Ctypes KeyController Samples.

(** The desktop of [focused_enUS] where [OpenProcess] answers the handle
    [h], on a platform whose [long] has [long_bytes] bytes and whose
    pointers have eight. *)
Definition desktop_with_handle (long_bytes h : Z) : WinAPI := {|
  GetForegroundWindow := 132868;
  GetWindowThreadProcessId := fun _ => (7, 4242);
  GetKeyboardLayout := fun _ => 67699721;
  LCIDToLocaleName := fun _ _ _ => (6, lit "en-US");
  OpenProcess := fun _ _ _ => h;
  QueryFullProcessImageNameW := fun _ _ _ =>
    (1, [67; 58; 92] ++ lit "Windows" ++ [92] ++ lit "notepad.exe");
  MapVirtualKeyExW := fun _ _ _ => 65;
  MapVirtualKeyW := fun _ _ => 0;
  GetKeyboardState := (1, repeat 0 256);
  ToUnicodeEx := fun _ _ _ _ _ _ => (1, [97]);
  time_ns := 1700000000000000000;
  os_path_basename := after_last_separator;
  sizeof_c_long := long_bytes;
  sizeof_c_void_p := 8
|}.


End MoreDesktops.

(* ===================================================================== *)
(** * More sample hosts                                                  *)
(* ===================================================================== *)

Module MoreSamples.
Import Py SystemInfo Samples.

(** A Mac on which the hardware registry utility prints [out]. *)
Definition mac_host (out : str) : Host := {|
  sys_platform := lit "darwin";
  winreg_MachineGuid := Raise OSError;
  open_read := fun _ => Raise OSError;
  check_output := fun cmd _ =>
    match cmd with
    | c :: _ => if str_eqb c (lit "ioreg") then Ok out else Raise OSError
    | [] => Raise OSError
    end;
  uuid_hardware_node := Some 207374182400001;
  randbits48 := fun _ => 0;
  os_getuid := Ok 501;
  socket_gethostname := Ok (lit "macbook");
  getpass_getuser := Ok (lit "olena");
  json_dumps := fun _ => lit "{}"
|}.

(** Two lines of output; the second gives the key and its quoted value. *)
Definition ioreg_text : str :=
  lit "+-o Root  <class IOPlatformExpertDevice>" ++ [10]
  ++ lit "    " ++ [34] ++ lit "IOPlatformUUID" ++ [34] ++ lit " = "
  ++ [34] ++ lit "9E1F0A52-77C1" ++ [34] ++ [10].

(** The key without any quoted value, then a well-formed line. *)
Definition ioreg_text_unquoted : str :=
  lit "IOPlatformUUID = none" ++ [10]
  ++ [34] ++ lit "IOPlatformUUID" ++ [34] ++ lit " = "
  ++ [34] ++ lit "9E1F0A52-77C1" ++ [34] ++ [10].

(** The usual table printed by the account query on Windows. *)
Definition whoami_text : str :=
  lit "USER INFORMATION" ++ [10]
  ++ lit "----------------" ++ [10] ++ [10]
  ++ lit "User Name     SID" ++ [10]
  ++ lit "============= ==============" ++ [10]
  ++ lit "desktop\olena S-1-5-21-1004336348-1177238915-1003" ++ [10].

Definition windows_host : Host := machine (lit "win32") (Ok whoami_text) (Some 1).

End MoreSamples.

(* ===================================================================== *)
(** * Facts about buffers and the monad                                  *)
(* ===================================================================== *)

Module BufferFacts.
Import Py Ctypes.

Lemma poke_length (buf units : list Z) :
  List.length (poke buf units) = List.length buf.
Proof.
  unfold poke. rewrite length_app, length_firstn, length_skipn. lia.
Qed.

Lemma value_length (buf : list Z) :
  (List.length (value buf) <= List.length buf)%nat.
Proof.
  induction buf as [|c buf IH]; simpl; [lia|].
  destruct (c =? 0); simpl; lia.
Qed.

Lemma value_of_poke_bounded (n : nat) (units : list Z) :
  (List.length (value (poke (create_unicode_buffer n) units)) <= n)%nat.
Proof.
  etransitivity; [apply value_length|].
  rewrite poke_length. unfold create_unicode_buffer.
  rewrite repeat_length. lia.
Qed.


Lemma skipn_zeros (k n : nat) :
  skipn k (repeat 0 n) = repeat 0 (n - k).
Proof.
  revert n. induction k as [|k IH]; intros [|n]; simpl; auto.
Qed.


End BufferFacts.

(* ===================================================================== *)
(** * Properties of the key controller                                   *)
(* ===================================================================== *)

Module KeyControllerFacts.
Import Py Ctypes KeyModel KeyController Props Samples MoreDesktops BufferFacts.

Lemma restype_truthy (raw : Z) :
  truthy (restype_c_void_p raw) = negb (raw =? 0).
Proof.
  unfold restype_c_void_p. destruct (Z.eqb_spec raw 0) as [->|Hne]; simpl.
  - reflexivity.
  - now destruct (Z.eqb_spec raw 0).
Qed.

Lemma restype_roundtrip (raw : Z) :
  argtype_c_void_p (restype_c_void_p raw) = raw.
Proof.
  unfold restype_c_void_p. now destruct (Z.eqb_spec raw 0) as [->|Hne].
Qed.

Lemma int_or_zero (x : Z) : int_or x 0 = x.
Proof. unfold int_or. now destruct (Z.eqb_spec x 0) as [->|]. Qed.

Lemma remove_handle_head (h : Z) (hs : handles) :
  remove_handle h (h :: hs) = hs.
Proof. simpl. now rewrite Z.eqb_refl. Qed.

Lemma wrap_c_int_small (h : Z) : 0 <= h < 2 ^ 31 -> wrap_c_int h = h.
Proof.
  intros H. unfold wrap_c_int. rewrite Z.mod_small; lia.
Qed.

(** A handle that fits a C [int] is the handle that gets closed. *)
Lemma close_handle_small (api : WinAPI) (h : Z) (hs : handles) :
  passes_as_c_int api h -> h <> 0 ->
  close_handle api (restype_c_void_p h) (h :: hs) = (Ok tt, hs).
Proof.
  intros (HL & HP & Hh) Hne.
  assert (B31 : 2 ^ 31 <= 2 ^ (8 * sizeof_c_long api))
    by (apply Z.pow_le_mono_r; lia).
  assert (P31 : 2 ^ 31 <= 2 ^ (8 * sizeof_c_void_p api))
    by (apply Z.pow_le_mono_r; lia).
  unfold close_handle, restype_c_void_p.
  destruct (Z.eqb_spec h 0); [contradiction|].
  unfold bind, lift, argtype_default_int.
  destruct (Z.leb_spec 0 h); [|lia].
  destruct (Z.ltb_spec h (2 ^ (8 * sizeof_c_long api))); [|lia].
  cbn [andb orb]. unfold modify, c_int_as_pointer.
  rewrite wrap_c_int_small by exact Hh.
  rewrite Z.mod_small by lia.
  now rewrite remove_handle_head.
Qed.

(** The clean-up of a [try/finally] runs whether the body returns or
    raises: a handle open before the block, if it fits a C [int], is
    closed after it as soon as the body leaves the table of handles
    alone. *)
Lemma try_finally_closes {A} (api : WinAPI) (body : M handles A)
      (h : Z) (hs : handles) (r : res A) :
  passes_as_c_int api h -> h <> 0 ->
  body (h :: hs) = (r, h :: hs) ->
  try_finally body (close_handle api (restype_c_void_p h)) (h :: hs)
    = (r, hs).
Proof.
  intros Hfit Hh Hbody. unfold try_finally.
  now rewrite Hbody, (close_handle_small api h hs Hfit Hh).
Qed.

Section Facts.
Variable api : WinAPI.

(** When no window has focus, no handle is obtained, or the handle fits
    a C [int], [get_process_name] returns with the table of handles as it
    found it. *)
Lemma get_process_name_returns (hs : handles) :
  GetForegroundWindow api = 0 \/ passes_as_c_int api (process_handle api) ->
  exists s, get_process_name api hs = (Ok s, hs).
Proof.
  unfold get_process_name, process_handle.
  rewrite restype_truthy, Bool.negb_involutive, restype_roundtrip.
  destruct (Z.eqb_spec (GetForegroundWindow api) 0) as [E0|E0];
    [eexists; reflexivity|].
  intros [Hw|Hfit]; [contradiction|].
  destruct (GetWindowThreadProcessId api _) as [tid pid]. simpl snd in Hfit.
  unfold bind, open_process.
  rewrite restype_truthy, Bool.negb_involutive.
  destruct (Z.eqb_spec (OpenProcess api PROCESS_QUERY_LIMITED_INFORMATION false pid) 0)
    as [E|E]; [eexists; reflexivity|].
  destruct (QueryFullProcessImageNameW api _ 0 _) as [ok chars] eqn:Q.
  eexists. apply try_finally_closes; [exact Hfit | exact E |]. reflexivity.
Qed.

(** The translator on a scan code that is neither absent nor zero, in
    terms of the environment alone. *)
Lemma map_scancode_to_char_unfold (sc : Z) :
  sc <> 0 ->
  map_scancode_to_char api (Some sc) =
    if GetForegroundWindow api =? 0
    then Raise (ValueError "Unknown or no foreground window")
    else if virtual_key api sc =? 0 then Ok []
    else if fst (GetKeyboardState api) =? 0
    then Raise (ValueError "Unknown keyboard state")
    else if 0 <? fst (composition api sc)
    then Ok (value (poke (create_unicode_buffer 8) (snd (composition api sc))))
    else Ok [].
Proof.
  intros Hsc. unfold map_scancode_to_char, composition, virtual_key, layout_of.
  simpl truthy. destruct (Z.eqb_spec sc 0); [contradiction|]. simpl negb. cbv iota.
  rewrite restype_truthy, Bool.negb_involutive.
  destruct (Z.eqb_spec (GetForegroundWindow api) 0) as [E|E]; [reflexivity|].
  rewrite !restype_roundtrip, !int_or_zero.
  unfold MAPVK_VSC_TO_VK_EX, MAPVK_VSC_TO_VK.
  set (hkl := GetKeyboardLayout api _).
  set (vk := if MapVirtualKeyExW api sc 3 hkl =? 0 then _ else _).
  destruct (vk =? 0); [reflexivity|].
  destruct (GetKeyboardState api) as [ok ks]. simpl fst. simpl snd.
  destruct (ok =? 0); [reflexivity|].
  unfold create_unicode_buffer at 1. rewrite repeat_length. simpl Z.of_nat.
  destruct (ToUnicodeEx api vk sc ks 8 0 hkl) as [r chars]. reflexivity.
Qed.

(** Whatever the translator answers has at most eight units. *)
Lemma map_scancode_to_char_bounded (scan_code : option Z) (s : str) :
  map_scancode_to_char api scan_code = Ok s -> (List.length s <= 8)%nat.
Proof.
  destruct scan_code as [sc|]; [|discriminate].
  destruct (Z.eq_dec sc 0) as [->|Hsc]; [discriminate|].
  rewrite (map_scancode_to_char_unfold sc Hsc).
  repeat match goal with
         | |- context [if ?b then _ else _] => destruct b
         end; intros H; inversion H; subst; simpl; try lia.
  apply value_of_poke_bounded.
Qed.

(** The record constructor is given six values for seven fields. *)
Lemma build_key_never_returns (key : KeyboardEvent) (hs : handles) :
  exists e hs', build_key api key hs = (Raise e, hs').
Proof.
  unfold build_key, bind, lift.
  destruct (map_scancode_to_char api (ev_scan_code key)) as [t|e];
    [|eexists; eexists; reflexivity].
  destruct (get_language api) as [l|e]; [|eexists; eexists; reflexivity].
  destruct (get_process_name api hs) as [[w|e] hs'];
    eexists; eexists; reflexivity.
Qed.

End Facts.

(** ** The record built from an event *)

(** C1 (the code departs from it).  [build_key] is to return a [Key] whose
    name is non-empty and whose event is DOWN or UP.  On the event
    (a, DOWN, 30), with a focused window typing en-US, the character, the
    layout and the process name are all resolved, and the call then
    raises [TypeError]: [Key] has seven required fields and is given six
    values, the session identifier announced in the docstring being
    absent. *)
Theorem build_key_a_down_raises :
  map_scancode_to_char focused_enUS (Some 30) = Ok (lit "a") /\
  get_language focused_enUS = Ok (lit "en-US") /\
  get_process_name focused_enUS [] = (Ok (lit "notepad.exe"), []) /\
  build_key focused_enUS a_down [] = (Raise TypeError, []).
Proof. repeat split; vm_compute; reflexivity. Qed.

(** ** Failures of the pipeline *)

(** C2 as stated fails: with scan code 30, a readable keyboard state and
    no window in focus, the pipeline raises, and the failure is neither of
    the two fatal conditions. *)
Lemma pipeline_aborts_without_focus :
  build_key no_focus a_down [] =
    (Raise (ValueError "Unknown or no foreground window"), []) /\
  ~ fails_only_on_fatal_conditions no_focus a_down.
Proof.
  split; [vm_compute; reflexivity|].
  intros H.
  destruct (H [] (ValueError "Unknown or no foreground window") [])
    as [Hi|Hu]; [vm_compute; reflexivity| |]; vm_compute in *; discriminate.
Qed.

(** C2 (amended).  For a scan code that is not zero the translator fails
    in exactly two cases: no window has focus, or a virtual key was found
    and the keyboard state cannot be read.  An unmappable key gives the
    empty string, the layout handle plays no part in failing, and
    [build_key] hands each failure of the translator to its caller
    unchanged. *)
Theorem translator_failures (api : WinAPI) (sc : Z) :
  sc <> 0 ->
  (GetForegroundWindow api = 0 ->
   map_scancode_to_char api (Some sc) =
     Raise (ValueError "Unknown or no foreground window")) /\
  (GetForegroundWindow api <> 0 -> virtual_key api sc = 0 ->
   map_scancode_to_char api (Some sc) = Ok []) /\
  (GetForegroundWindow api <> 0 -> virtual_key api sc <> 0 ->
   unreadable_state api ->
   map_scancode_to_char api (Some sc) =
     Raise (ValueError "Unknown keyboard state")) /\
  (GetForegroundWindow api <> 0 -> virtual_key api sc <> 0 ->
   ~ unreadable_state api ->
   exists s, map_scancode_to_char api (Some sc) = Ok s) /\
  (forall key hs e,
     ev_scan_code key = Some sc ->
     map_scancode_to_char api (Some sc) = Raise e ->
     build_key api key hs = (Raise e, hs)).
Proof.
  intros Hsc. rewrite (map_scancode_to_char_unfold api sc Hsc).
  unfold unreadable_state.
  repeat split.
  - intros ->. reflexivity.
  - intros Hw ->. destruct (Z.eqb_spec (GetForegroundWindow api) 0); easy.
  - intros Hw Hvk Hks.
    destruct (Z.eqb_spec (GetForegroundWindow api) 0); [easy|].
    destruct (Z.eqb_spec (virtual_key api sc) 0); [easy|].
    now rewrite Hks.
  - intros Hw Hvk Hks.
    destruct (Z.eqb_spec (GetForegroundWindow api) 0); [easy|].
    destruct (Z.eqb_spec (virtual_key api sc) 0); [easy|].
    destruct (Z.eqb_spec (fst (GetKeyboardState api)) 0); [easy|].
    destruct (0 <? fst (composition api sc)); eexists; reflexivity.
  - intros key hs e Hkey Hraise.
    unfold build_key, bind, lift. rewrite Hkey.
    rewrite (map_scancode_to_char_unfold api sc Hsc), Hraise. reflexivity.
Qed.

Lemma translator_failures_witness :
  map_scancode_to_char no_focus (Some 30) =
    Raise (ValueError "Unknown or no foreground window").
Proof.
  apply (translator_failures no_focus 30); [lia | reflexivity].
Defined.

(** C4.  A scan code that is absent or zero makes the translator raise
    the invalid-input error before anything else is looked at, and
    [build_key] lets that error through to its caller. *)
Theorem zero_scan_code_is_rejected (api : WinAPI) (scan_code : option Z) :
  scan_code = None \/ scan_code = Some 0 ->
  map_scancode_to_char api scan_code = Raise (ValueError "Scan code needed") /\
  (forall key hs,
     ev_scan_code key = scan_code ->
     build_key api key hs = (Raise (ValueError "Scan code needed"), hs)).
Proof.
  intros H.
  assert (E : map_scancode_to_char api scan_code
              = Raise (ValueError "Scan code needed"))
    by (destruct H as [-> | ->]; reflexivity).
  split; [exact E|].
  intros key hs Hkey. unfold build_key, bind, lift. now rewrite Hkey, E.
Qed.

Lemma zero_scan_code_is_rejected_witness :
  map_scancode_to_char focused_enUS (Some 0)
    = Raise (ValueError "Scan code needed") /\
  build_key focused_enUS zero_down []
    = (Raise (ValueError "Scan code needed"), []).
Proof.
  destruct (zero_scan_code_is_rejected focused_enUS (Some 0)) as [E P];
    [right; reflexivity|].
  split; [exact E | apply P; reflexivity].
Defined.

(** ** The layout of the focused thread *)

Lemma holds_from_sound (P : Z -> bool) (fuel : nat) (k n : Z) :
  holds_from P k fuel = true ->
  k <= n < k + Z.of_nat fuel ->
  P n = true.
Proof.
  revert k. induction fuel as [|fuel IH]; intros k H Hn; [lia|].
  simpl in H. apply andb_prop in H as [Hk Hrest].
  destruct (Z.eq_dec n k) as [->|Hne]; [exact Hk|].
  apply (IH (k + 1)); [exact Hrest | lia].
Qed.

(** The diagnostic text is well formed for every 16-bit identifier. *)
Lemma langid_diagnostic_16bit (n : Z) :
  0 <= n < 65536 ->
  is_langid_diagnostic (lit "LANGID_" ++ format_alt_hex 6 n) = true.
Proof.
  intros Hn.
  apply (holds_from_sound
           (fun k => is_langid_diagnostic (lit "LANGID_" ++ format_alt_hex 6 k))
           (Z.to_nat 65536) 0).
  - vm_compute. reflexivity.
  - lia.
Qed.

(** What [get_language] does when the thread has a layout: the locale
    name when the identifier translates, the diagnostic text otherwise. *)
Lemma get_language_with_layout (api : WinAPI) :
  let tid := fst (GetWindowThreadProcessId api (GetForegroundWindow api)) in
  let lang_id := Z.land (GetKeyboardLayout api tid) 65535 in
  GetKeyboardLayout api tid <> 0 ->
  exists s, get_language api = Ok s /\
    (fst (LCIDToLocaleName api lang_id 85 0) = 0 ->
     s = lit "LANGID_" ++ format_alt_hex 6 lang_id /\
     is_langid_diagnostic s = true).
Proof.
  intros tid lang_id Hhkl. unfold get_language.
  rewrite restype_roundtrip.
  fold tid. destruct (GetWindowThreadProcessId api _) as [t p] eqn:W.
  simpl in tid. subst tid.
  unfold restype_c_void_p at 1.
  destruct (Z.eqb_spec (GetKeyboardLayout api t) 0); [contradiction|].
  simpl. fold lang_id.
  destruct (LCIDToLocaleName api lang_id 85 0) as [ok chars].
  eexists; split; [reflexivity|].
  simpl. intros ->. split; [reflexivity|].
  apply langid_diagnostic_16bit.
  unfold lang_id. change 65535 with (Z.ones 16).
  rewrite Z.land_ones by lia.
  pose proof (Z.mod_pos_bound (GetKeyboardLayout api t) (2 ^ 16)). lia.
Qed.

(** C6 (the code departs from it).  [get_language] is to answer the text
    LANGID_0x and four hexadecimal digits whenever a stage of the
    resolution fails, and never to raise.  The code looks at the outcome
    of the last stage only.  With no window in focus the calls that follow
    are made with a null window and thread 0, which designates the calling
    thread: its layout translates and the answer is a locale name.  With a
    thread that has no layout the handle comes back as [None] and masking
    it raises [TypeError]. *)
Theorem get_language_misses_its_fallback :
  GetForegroundWindow no_focus = 0 /\
  get_language no_focus = Ok (lit "en-US") /\
  is_langid_diagnostic (lit "en-US") = false /\
  GetKeyboardLayout no_layout 7 = 0 /\
  get_language no_layout = Raise TypeError.
Proof. repeat split; vm_compute; reflexivity. Qed.

(** ** Translation of a scan code *)




(** C10.  Whatever the translator returns has at most eight units, the
    capacity of the buffer handed to the composition call; a composition
    of more units than that is never what is returned. *)
Theorem translate_at_most_8_units
        (api : WinAPI) (scan_code : option Z) (s : str) :
  map_scancode_to_char api scan_code = Ok s ->
  (List.length s <= 8)%nat /\
  (forall sc, scan_code = Some sc ->
     (8 < List.length (snd (composition api sc)))%nat ->
     s <> snd (composition api sc)).
Proof.
  intros H. pose proof (map_scancode_to_char_bounded api scan_code s H) as B.
  split; [exact B|].
  intros sc _ Hlong ->. lia.
Qed.

Lemma translate_at_most_8_units_witness :
  (List.length (repeat 97 8) <= 8)%nat /\
  repeat 97 8 <> snd (composition long_composition 30).
Proof.
  destruct (translate_at_most_8_units long_composition (Some 30) (repeat 97 8))
    as [B L]; [vm_compute; reflexivity|].
  split; [exact B|].
  apply (L 30); [reflexivity | vm_compute; lia].
Defined.

(** ** The image name of the focused process *)


(** The same handle where [long] has eight bytes: the conversion drops the
    high half, the callee is asked to close 0x1A4, and the handle is still
    open. *)
Lemma get_process_name_wide_handle_long8 :
  get_process_name (desktop_with_handle 8 4294967716) []
    = (Ok (lit "notepad.exe"), [4294967716]).
Proof. vm_compute. reflexivity. Qed.

End KeyControllerFacts.

(* ===================================================================== *)
(** * Properties of the identity resolvers                               *)
(* ===================================================================== *)

Module SystemInfoFacts.
Import Py Props Samples SystemInfo.

Section Facts.
Variable host : Host.

(** *** The node *)

Lemma getnode_returns (p : process) :
  exists n p',
    getnode host p = (Ok n, p') /\
    uuid_node p' = Some n /\
    objects p' = objects p.
Proof.
  unfold getnode. destruct p as [[n|] d os]; simpl.
  - exists n. eexists. repeat split.
  - destruct (uuid_hardware_node host) as [n|];
      eexists; eexists; repeat split.
Qed.

Lemma getnode_remembered (p : process) (n : Z) :
  uuid_node p = Some n -> getnode host p = (Ok n, p).
Proof. intros H. unfold getnode. now rewrite H. Qed.

(** *** The platform branches *)

Lemma machine_id_from_cases (paths : list str) :
  (forall p, machine_id_from host paths p = (Ok None, p)) \/
  (exists v, forall p,
      machine_id_from host paths p = (Ok (Some (lit "linux:" ++ v)), p)).
Proof.
  induction paths as [|path rest IH]; [left; reflexivity|].
  simpl. unfold bind, try_except, lift, ret.
  destruct (open_read host path) as [text|e].
  - right. exists (strip text). reflexivity.
  - destruct IH as [IH|[v IH]]; [left | right; exists v]; intros p; apply IH.
Qed.

Lemma machine_id_from_all_fail (paths : list str) (p : process) :
  (forall q, In q paths -> exists e, open_read host q = Raise e) ->
  machine_id_from host paths p = (Ok None, p).
Proof.
  induction paths as [|path rest IH]; intros H; [reflexivity|].
  simpl. unfold bind, try_except, lift, ret.
  destruct (H path (or_introl eq_refl)) as [e ->].
  apply IH. intros q Hq. apply H. now right.
Qed.

Lemma platform_uuid_from_cases (lines : list str) :
  platform_uuid_from lines = Ok None \/
  (exists e, platform_uuid_from lines = Raise e) \/
  (exists v, platform_uuid_from lines = Ok (Some (lit "mac:" ++ v))).
Proof.
  induction lines as [|line rest IH]; [left; reflexivity|].
  simpl. destruct (contains _ line); [|exact IH].
  destruct (item_from_end _ 2) as [field|e]; simpl.
  - right; right. exists field. reflexivity.
  - right; left. exists e. reflexivity.
Qed.

(** The platform-specific part never raises, leaves the process alone, and
    returns either nothing or a text carrying the tag of its platform. *)
Lemma device_id_branch_cases :
  (forall p, device_id_branch host p = (Ok None, p)) \/
  (exists t v,
      In t [lit "win:"; lit "linux:"; lit "mac:"] /\
      forall p, device_id_branch host p = (Ok (Some (t ++ v)), p)).
Proof.
  unfold device_id_branch.
  destruct (startswith (lit "win") (sys_platform host)).
  { unfold try_except, bind, lift, ret.
    destruct (winreg_MachineGuid host) as [v|e].
    - right. exists (lit "win:"), v. split; [simpl; auto | reflexivity].
    - left. reflexivity. }
  destruct (startswith (lit "linux") (sys_platform host)).
  { destruct (machine_id_from_cases
                [lit "/etc/machine-id"; lit "/var/lib/dbus/machine-id"])
      as [H|[v H]].
    - left. exact H.
    - right. exists (lit "linux:"), v. split; [simpl; auto | exact H]. }
  destruct (str_eqb (sys_platform host) (lit "darwin")).
  { unfold try_except, bind, lift, ret.
    destruct (check_output host _ false) as [out|e]; [|left; reflexivity].
    destruct (platform_uuid_from_cases (splitlines out))
      as [H|[[e H]|[v H]]]; rewrite H.
    - left. reflexivity.
    - left. reflexivity.
    - right. exists (lit "mac:"), v. split; [simpl; auto | reflexivity]. }
  left. reflexivity.
Qed.

(** [_get_device_id] always returns; the objects of the process are not
    touched; the text is tagged; and once a node is remembered the call is
    quiet. *)
Lemma get_device_id_cases (p : process) :
  (exists t v,
      In t [lit "win:"; lit "linux:"; lit "mac:"] /\
      (forall q, device_id_branch host q = (Ok (Some (t ++ v)), q)) /\
      _get_device_id host p = (Ok (t ++ v), p)) \/
  (exists n p',
      (forall q, device_id_branch host q = (Ok None, q)) /\
      uuid_node p' = Some n /\
      objects p' = objects p /\
      _get_device_id host p = (Ok (lit "fb_mac:" ++ str_of_int n), p')).
Proof.
  unfold _get_device_id, bind.
  destruct device_id_branch_cases as [H|(t & v & Ht & H)].
  - right. rewrite H.
    destruct (getnode_returns p) as (n & p' & Hn & Hnode & Hobj).
    exists n, p'. rewrite Hn. repeat split; assumption.
  - left. exists t, v. rewrite H. repeat split; assumption.
Qed.

(** When the platform-specific source fails, nothing is returned by the
    branch. *)
Lemma device_id_branch_falls_through (p : process) :
  (startswith (lit "win") (sys_platform host) = true /\
   exists e, winreg_MachineGuid host = Raise e) \/
  (startswith (lit "win") (sys_platform host) = false /\
   startswith (lit "linux") (sys_platform host) = true /\
   forall q, In q [lit "/etc/machine-id"; lit "/var/lib/dbus/machine-id"] ->
             exists e, open_read host q = Raise e) \/
  (startswith (lit "win") (sys_platform host) = false /\
   startswith (lit "linux") (sys_platform host) = false /\
   str_eqb (sys_platform host) (lit "darwin") = true /\
   exists e, check_output host [lit "ioreg"; lit "-rd1"; lit "-c";
                                lit "IOPlatformExpertDevice"] false = Raise e) \/
  (startswith (lit "win") (sys_platform host) = false /\
   startswith (lit "linux") (sys_platform host) = false /\
   str_eqb (sys_platform host) (lit "darwin") = false) ->
  device_id_branch host p = (Ok None, p).
Proof.
  unfold device_id_branch.
  intros [(-> & e & He) | [(-> & -> & Hall) | [(-> & -> & -> & e & He)
                                              | (-> & -> & ->)]]].
  - unfold try_except, bind, lift. now rewrite He.
  - now apply machine_id_from_all_fail.
  - unfold try_except, bind, lift. now rewrite He.
  - reflexivity.
Qed.

(** *** The account *)

Lemma get_account_id_posix :
  startswith (lit "win") (sys_platform host) = false ->
  exists s, _get_account_id host = Ok s /\
    (s = lit "uid:unknown" \/
     exists uid, os_getuid host = Ok uid /\ s = lit "uid:" ++ str_of_int uid).
Proof.
  intros H. unfold _get_account_id. rewrite H.
  destruct (os_getuid host) as [uid|e]; simpl.
  - eexists. split; [reflexivity|]. right. now exists uid.
  - eexists. split; [reflexivity|]. now left.
Qed.

Lemma sid_line_from_tagged (lines : list str) (s : str) :
  sid_line_from lines = Some s -> startswith (lit "sid:S-1-") s = true.
Proof.
  induction lines as [|line rest IH]; [discriminate|].
  change (sid_line_from (line :: rest))
    with (if startswith (lit "S-1-") (strip line)
          then Some (lit "sid:" ++ strip line)
          else sid_line_from rest).
  destruct (startswith (lit "S-1-") (strip line)) eqn:E; [|exact IH].
  intros [= <-]. exact E.
Qed.

Lemma get_account_id_windows (out : str) :
  startswith (lit "win") (sys_platform host) = true ->
  check_output host [lit "whoami"; lit "/user"] true = Ok out ->
  exists s, _get_account_id host = Ok s /\
    (s = lit "sid:unknown" \/ startswith (lit "sid:S-1-") s = true).
Proof.
  intros Hw Hout. unfold _get_account_id. rewrite Hw, Hout. simpl.
  destruct (sid_line_from (splitlines out)) as [s|] eqn:L.
  - exists s. split; [reflexivity|]. right. now apply sid_line_from_tagged in L.
  - destruct (filter _ (split_ws out)) as [|x parts] eqn:F.
    + eexists. split; [reflexivity|]. now left.
    + assert (All : forall y, In y (x :: parts) ->
                      startswith (lit "S-1-") y = true).
      { intros y Hy. rewrite <- F in Hy. now apply filter_In in Hy. }
      unfold item_from_end.
      destruct (nth_error (rev (x :: parts)) (1 - 1)) as [y|] eqn:N; simpl.
      * eexists. split; [reflexivity|]. right.
        apply nth_error_In, in_rev in N. exact (All y N).
      * apply nth_error_None in N. rewrite length_rev in N. simpl in N. lia.
Qed.

Lemma get_account_id_windows_raises (e : exn) :
  startswith (lit "win") (sys_platform host) = true ->
  check_output host [lit "whoami"; lit "/user"] true = Raise e ->
  _get_account_id host = Raise e.
Proof.
  intros Hw Hout. unfold _get_account_id. now rewrite Hw, Hout.
Qed.

End Facts.

(** ** The device identifier *)

(** C5.  [_get_device_id] always returns, and what it returns is non-empty
    and begins with exactly one of the four tags.  When the source of the
    platform fails (the registry read on Windows, both files on Linux, the
    utility on macOS) or the platform is none of the three, the text is
    the one tagged fb_mac. *)
Theorem device_id_is_tagged (host : Host) (p : process) :
  exists s p',
    _get_device_id host p = (Ok s, p') /\
    s <> [] /\
    tags_matching device_tags s = 1%nat /\
    (((startswith (lit "win") (sys_platform host) = true /\
       exists e, winreg_MachineGuid host = Raise e) \/
      (startswith (lit "win") (sys_platform host) = false /\
       startswith (lit "linux") (sys_platform host) = true /\
       forall q, In q [lit "/etc/machine-id"; lit "/var/lib/dbus/machine-id"] ->
                 exists e, open_read host q = Raise e) \/
      (startswith (lit "win") (sys_platform host) = false /\
       startswith (lit "linux") (sys_platform host) = false /\
       str_eqb (sys_platform host) (lit "darwin") = true /\
       exists e, check_output host [lit "ioreg"; lit "-rd1"; lit "-c";
                                    lit "IOPlatformExpertDevice"] false
                 = Raise e) \/
      (startswith (lit "win") (sys_platform host) = false /\
       startswith (lit "linux") (sys_platform host) = false /\
       str_eqb (sys_platform host) (lit "darwin") = false)) ->
     startswith (lit "fb_mac:") s = true).
Proof.
  destruct (get_device_id_cases host p)
    as [(t & v & Ht & Hb & H) | (n & p' & Hb & _ & _ & H)].
  - exists (t ++ v), p. split; [exact H|].
    assert (Tagged : t ++ v <> [] /\ tags_matching device_tags (t ++ v) = 1%nat).
    { simpl in Ht. destruct Ht as [<-|[<-|[<-|[]]]];
        (split; [discriminate | vm_compute; reflexivity]). }
    destruct Tagged as [Hne Hone]. repeat split; try assumption.
    intros Hfail.
    pose proof (device_id_branch_falls_through host p Hfail) as Hnone.
    rewrite Hb in Hnone. discriminate.
  - eexists; eexists. split; [exact H|].
    split; [discriminate|]. split; [vm_compute; reflexivity|].
    intros _. reflexivity.
Qed.

Lemma device_id_is_tagged_witness :
  exists s p',
    _get_device_id bsd_no_hardware fresh_process = (Ok s, p') /\
    startswith (lit "fb_mac:") s = true.
Proof.
  destruct (device_id_is_tagged bsd_no_hardware fresh_process)
    as (s & p' & R & _ & _ & Fallback).
  exists s, p'. split; [exact R|].
  apply Fallback. right; right; right.
  repeat split; vm_compute; reflexivity.
Defined.

(** ** The account identifier *)

(** C3 (the code departs from it).  [_get_account_id] is to answer
    sid:unknown when the account query fails on Windows.  The query is made
    outside any [try]: when the utility exits with an error status the
    exception leaves the function, and the construction of a [SystemInfo]
    fails with it. *)
Theorem get_account_id_whoami_fails :
  startswith (lit "win") (sys_platform windows_whoami_fails) = true /\
  _get_account_id windows_whoami_fails = Raise CalledProcessError /\
  new windows_whoami_fails fresh_process
    = (Raise CalledProcessError, fresh_process).
Proof. repeat split; vm_compute; reflexivity. Qed.

(** ** The snapshot *)

Section Snapshot.
Variable host : Host.

Lemma get_device_id_objects (p : process) :
  objects (snd (_get_device_id host p)) = objects p.
Proof.
  destruct (get_device_id_cases host p)
    as [(t & v & _ & _ & H) | (n & p' & _ & _ & Hobj & H)]; rewrite H; simpl.
  - reflexivity.
  - exact Hobj.
Qed.

(** Once [_get_device_id] has answered, it answers the same from every
    process that remembers the same node, and leaves that process as it
    is. *)
Lemma get_device_id_again (p p1 p2 : process) (d : str) :
  _get_device_id host p = (Ok d, p1) ->
  uuid_node p2 = uuid_node p1 ->
  _get_device_id host p2 = (Ok d, p2).
Proof.
  intros H Hnode.
  destruct (get_device_id_cases host p)
    as [(t & v & _ & Hb & H') | (n & p' & Hb & Hn & _ & H')];
    rewrite H' in H; injection H as <- <-.
  - unfold _get_device_id, bind. now rewrite Hb.
  - rewrite Hn in Hnode.
    unfold _get_device_id, bind.
    now rewrite Hb, (getnode_remembered host p2 n Hnode).
Qed.

Lemma init_objects (p : process) :
  objects (snd (__init__ host p)) = objects p.
Proof.
  pose proof (get_device_id_objects p) as H.
  unfold __init__, bind, lift, ret.
  destruct (_get_device_id host p) as [[d|e] p1]; simpl in H; [|exact H].
  destruct (_get_account_id host); [|exact H].
  destruct (socket_gethostname host); [|exact H].
  destruct (getpass_getuser host); exact H.
Qed.

Lemma init_inversion (p p1 : process) (o : SystemInfo) :
  __init__ host p = (Ok o, p1) ->
  exists d a n u,
    _get_device_id host p = (Ok d, p1) /\
    _get_account_id host = Ok a /\
    socket_gethostname host = Ok n /\
    getpass_getuser host = Ok u /\
    o = mkSystemInfo d a n u (sys_platform host).
Proof.
  unfold __init__, bind, lift, ret.
  destruct (_get_device_id host p) as [[d|e] p']; [|discriminate].
  destruct (_get_account_id host) as [a|e]; [|discriminate].
  destruct (socket_gethostname host) as [n|e]; [|discriminate].
  destruct (getpass_getuser host) as [u|e]; [|discriminate].
  intros [= <- <-]. now exists d, a, n, u.
Qed.

Lemma init_again (p p1 p2 : process) (o : SystemInfo) :
  __init__ host p = (Ok o, p1) ->
  uuid_node p2 = uuid_node p1 ->
  __init__ host p2 = (Ok o, p2).
Proof.
  intros H Hnode.
  destruct (init_inversion p p1 o H) as (d & a & n & u & Hd & Ha & Hn & Hu & ->).
  unfold __init__, bind, lift, ret.
  now rewrite (get_device_id_again p p1 p2 d Hd Hnode), Ha, Hn, Hu.
Qed.

Lemma new_inversion (p p' : process) (r : nat) :
  new host p = (Ok r, p') ->
  exists o p1,
    __init__ host p = (Ok o, p1) /\
    r = List.length (objects p1) /\
    p' = mkProcess (uuid_node p1) (draws p1) (objects p1 ++ [o]).
Proof.
  unfold new, bind.
  destruct (__init__ host p) as [[o|e] p1]; [|discriminate].
  intros [= <- <-]. now exists o, p1.
Qed.

Lemma new_objects (p : process) :
  exists l, objects (snd (new host p)) = objects p ++ l.
Proof.
  pose proof (init_objects p) as H.
  unfold new, bind.
  destruct (__init__ host p) as [[o|e] p1]; simpl in *.
  - exists [o]. now rewrite H.
  - exists []. now rewrite app_nil_r.
Qed.

End Snapshot.

(** A property reads the object and nothing else. *)
Lemma getter_reads (q : property) (self : nat) (p : process) :
  getter q self p =
    (match nth_error (objects p) self with
     | Some o => Ok (field q o)
     | None => Raise AttributeError
     end, p).
Proof.
  destruct q; unfold getter, device_id, account_id, device_name, username,
    bind, deref, ret; now destruct (nth_error (objects p) self).
Qed.

Lemma to_dict_reads (self : nat) (p : process) :
  to_dict self p =
    (match nth_error (objects p) self with
     | Some o =>
         Ok [(lit "device_id", __device_id o);
             (lit "account_id", __account_id o);
             (lit "device_name", __device_name o);
             (lit "username", __username o);
             (lit "platform", __platform o)]
     | None => Raise AttributeError
     end, p).
Proof.
  unfold to_dict, device_id, account_id, device_name, username,
    bind, deref, ret.
  destruct (nth_error (objects p) self) as [o|] eqn:E;
    repeat (rewrite E; cbv beta iota); reflexivity.
Qed.

(** No call removes or rewrites an object; a construction adds one. *)
Lemma after_extends (c : call) (p : process) :
  exists l, objects (after c p) = objects p ++ l.
Proof.
  destruct c as [now | self q | self | now self | self q v]; simpl.
  - apply new_objects.
  - rewrite getter_reads. exists []. now rewrite app_nil_r.
  - rewrite to_dict_reads. exists []. now rewrite app_nil_r.
  - unfold to_json, bind. rewrite to_dict_reads. exists [].
    rewrite app_nil_r. now destruct (nth_error (objects p) self).
  - unfold set_property, bind, deref, raise. exists [].
    rewrite app_nil_r. now destruct (nth_error (objects p) self).
Qed.

Lemma after_all_extends (cs : list call) (p : process) :
  exists l, objects (after_all cs p) = objects p ++ l.
Proof.
  revert p. induction cs as [|c cs IH]; intros p; simpl.
  - exists []. now rewrite app_nil_r.
  - destruct (IH (after c p)) as [l2 H2].
    destruct (after_extends c p) as [l1 H1].
    exists (l1 ++ l2).
    change (after_all (c :: cs) p) with (after_all cs (after c p)).
    now rewrite H2, H1, app_assoc.
Qed.

Lemma after_all_keeps (cs : list call) (p : process) (r : nat) (o : SystemInfo) :
  nth_error (objects p) r = Some o ->
  nth_error (objects (after_all cs p)) r = Some o.
Proof.
  intros H. destruct (after_all_extends cs p) as [l ->].
  rewrite nth_error_app1; [exact H|].
  apply nth_error_Some. congruence.
Qed.

(** C9.  When a [SystemInfo] has been constructed, constructing a second
    one in the same process under the same answers of the host succeeds
    and gives the same device and account identifiers; and whatever is
    done afterwards through the class (reading properties, serialising,
    assigning to a property, constructing further objects under any
    answers of the host), the first object keeps the fields it was given:
    every property and [to_dict] read the same values as right after the
    construction. *)
Theorem construction_is_idempotent
        (host : Host) (p p1 : process) (r1 : nat) :
  new host p = (Ok r1, p1) ->
  exists r2 p2 d a,
    new host p1 = (Ok r2, p2) /\
    r1 <> r2 /\
    device_id r1 p2 = (Ok d, p2) /\ device_id r2 p2 = (Ok d, p2) /\
    account_id r1 p2 = (Ok a, p2) /\ account_id r2 p2 = (Ok a, p2) /\
    (forall cs,
        nth_error (objects (after_all cs p1)) r1 = nth_error (objects p1) r1 /\
        (forall q, fst (getter q r1 (after_all cs p1)) = fst (getter q r1 p1)) /\
        fst (to_dict r1 (after_all cs p1)) = fst (to_dict r1 p1) /\
        (forall q v, fst (set_property r1 q v (after_all cs p1))
                     = Raise AttributeError)).
Proof.
  intros H.
  destruct (new_inversion host p p1 r1 H) as (o & p0 & Hinit & -> & ->).
  set (p1 := mkProcess (uuid_node p0) (draws p0) (objects p0 ++ [o])).
  assert (Hagain : __init__ host p1 = (Ok o, p1))
    by (apply (init_again host p p0 p1 o Hinit); reflexivity).
  assert (Hfirst : nth_error (objects p1) (List.length (objects p0)) = Some o).
  { simpl. rewrite nth_error_app2, Nat.sub_diag by lia. reflexivity. }
  set (p2 := mkProcess (uuid_node p1) (draws p1) (objects p1 ++ [o])).
  assert (H1 : nth_error (objects p2) (List.length (objects p0)) = Some o).
  { unfold p2. simpl objects. rewrite nth_error_app1; [exact Hfirst|].
    simpl. rewrite length_app. simpl. lia. }
  assert (H2 : nth_error (objects p2) (List.length (objects p1)) = Some o).
  { unfold p2. simpl objects. rewrite nth_error_app2, Nat.sub_diag by lia.
    reflexivity. }
  exists (List.length (objects p1)), p2, (__device_id o), (__account_id o).
  split; [unfold new, bind; rewrite Hagain; reflexivity|].
  split; [simpl; rewrite length_app; simpl; lia|].
  change device_id with (getter P_device_id).
  change account_id with (getter P_account_id).
  rewrite !getter_reads, H1, H2.
  repeat split.
  - rewrite Hfirst. now apply after_all_keeps.
  - intros q. rewrite !getter_reads, Hfirst.
    now rewrite (after_all_keeps cs p1 _ o Hfirst).
  - rewrite !to_dict_reads, Hfirst.
    now rewrite (after_all_keeps cs p1 _ o Hfirst).
  - intros q v. unfold set_property, bind, deref, raise.
    now rewrite (after_all_keeps cs p1 _ o Hfirst).
Qed.

Lemma construction_is_idempotent_witness :
  exists r2 p2 d a,
    new bsd_no_hardware (snd (new bsd_no_hardware fresh_process)) = (Ok r2, p2) /\
    device_id 0 p2 = (Ok d, p2) /\ device_id r2 p2 = (Ok d, p2) /\
    account_id 0 p2 = (Ok a, p2) /\ account_id r2 p2 = (Ok a, p2).
Proof.
  destruct (construction_is_idempotent bsd_no_hardware fresh_process
              (snd (new bsd_no_hardware fresh_process)) 0)
    as (r2 & p2 & d & a & N & _ & D1 & D2 & A1 & A2 & _);
    [vm_compute; reflexivity|].
  exists r2, p2, d, a. repeat split; assumption.
Defined.

End SystemInfoFacts.

(* ===================================================================== *)
(** * Further properties of the key controller                           *)
(* ===================================================================== *)

Module KeyControllerMore.
Import Py Ctypes KeyModel KeyController KeyControllerRest Props Readers Samples.
Import BufferFacts KeyControllerFacts.

(** ** Buffers *)

Lemma value_has_no_nul (buf : list Z) :
  Forall (fun c => c <> 0) (value buf).
Proof.
  induction buf as [|c buf IH]; simpl; [constructor|].
  destruct (Z.eqb_spec c 0); constructor; assumption.
Qed.

Lemma value_ignores_zeros (a : list Z) (k : nat) :
  value (a ++ repeat 0 k) = value a.
Proof.
  induction a as [|c a IH]; simpl.
  - destruct k; reflexivity.
  - destruct (c =? 0); [reflexivity | now rewrite IH].
Qed.

(** Reading a zeroed buffer after a write sees what was written, cut at
    the capacity. *)
Lemma value_of_poke (n : nat) (units : list Z) :
  value (poke (create_unicode_buffer n) units) = value (firstn n units).
Proof.
  unfold poke, create_unicode_buffer.
  rewrite repeat_length, skipn_zeros. apply value_ignores_zeros.
Qed.

Lemma value_firstn_length (n : nat) (units : list Z) :
  (List.length (value (firstn n units)) <= n)%nat.
Proof.
  etransitivity; [apply value_length|]. rewrite length_firstn. lia.
Qed.

(** ** [get_language] *)

Section Language.
Variable api : WinAPI.

Let tid := fst (GetWindowThreadProcessId api (GetForegroundWindow api)).
Let hkl := GetKeyboardLayout api tid.
Let lang_id := Z.land hkl 65535.

(** [get_language] in terms of the environment alone. *)
Lemma get_language_unfold :
  get_language api =
    if hkl =? 0 then Raise TypeError
    else if fst (LCIDToLocaleName api lang_id 85 0) =? 0
    then Ok (lit "LANGID_" ++ format_alt_hex 6 lang_id)
    else Ok (value (firstn 85 (snd (LCIDToLocaleName api lang_id 85 0)))).
Proof.
  unfold get_language. rewrite restype_roundtrip.
  subst lang_id hkl tid.
  destruct (GetWindowThreadProcessId api (GetForegroundWindow api)) as [t p].
  simpl fst. unfold restype_c_void_p.
  destruct (Z.eqb_spec (GetKeyboardLayout api t) 0); [reflexivity|].
  unfold int_and, rbind.
  change (Z.of_nat (Datatypes.length (create_unicode_buffer 85))) with 85.
  destruct (LCIDToLocaleName api _ 85 0) as [ok chars].
  rewrite value_of_poke. simpl fst. simpl snd.
  now destruct (ok =? 0).
Qed.

Lemma lang_id_16bit : 0 <= lang_id < 65536.
Proof.
  subst lang_id. change 65535 with (Z.ones 16).
  rewrite Z.land_ones by lia.
  pose proof (Z.mod_pos_bound hkl (2 ^ 16)). lia.
Qed.

End Language.

(** The written identifier can be read back, for every 16-bit value. *)
Lemma langid_roundtrip_16bit (n : Z) :
  0 <= n < 65536 ->
  langid_of_diagnostic (lit "LANGID_" ++ format_alt_hex 6 n) = Some n.
Proof.
  intros Hn.
  pose (P := fun k => match langid_of_diagnostic
                              (lit "LANGID_" ++ format_alt_hex 6 k) with
                     | Some v => v =? k
                     | None => false
                     end).
  assert (H : P n = true)
    by (apply (holds_from_sound P (Z.to_nat 65536) 0);
        [vm_compute; reflexivity | lia]).
  unfold P in H.
  destruct (langid_of_diagnostic _) as [v|]; [|discriminate].
  apply Z.eqb_eq in H. now subst.
Qed.

Lemma get_language_raises_iff_no_layout_aux (api : WinAPI) (e : exn) :
  get_language api = Raise e -> e = TypeError.
Proof.
  rewrite get_language_unfold.
  destruct (_ =? 0); [now intros [= <-]|].
  destruct (_ =? 0); discriminate.
Qed.

(** When the process handle, if any, fits a C [int], [build_key] raises
    and gives the table of handles back unchanged. *)
Lemma build_key_never_returns_balanced
      (api : WinAPI) (key : KeyboardEvent) (hs : handles) :
  GetForegroundWindow api = 0 \/ passes_as_c_int api (process_handle api) ->
  exists e, build_key api key hs = (Raise e, hs).
Proof.
  intros Hfit. unfold build_key, bind, lift.
  destruct (map_scancode_to_char api (ev_scan_code key)) as [t|e];
    [|eexists; reflexivity].
  destruct (get_language api) as [l|e]; [|eexists; reflexivity].
  destruct (get_process_name_returns api hs Hfit) as [w ->].
  eexists; reflexivity.
Qed.

(** X1.  [get_language] raises exactly when the thread it asks about has
    no layout handle, and what it raises is [TypeError]; whether a window
    has focus plays no part. *)
Theorem get_language_raises_iff_no_layout (api : WinAPI) :
  let tid := fst (GetWindowThreadProcessId api (GetForegroundWindow api)) in
  (GetKeyboardLayout api tid = 0 -> get_language api = Raise TypeError) /\
  (GetKeyboardLayout api tid <> 0 -> exists s, get_language api = Ok s) /\
  (forall e, get_language api = Raise e ->
             e = TypeError /\ GetKeyboardLayout api tid = 0).
Proof.
  intros tid. rewrite get_language_unfold. fold tid.
  destruct (Z.eqb_spec (GetKeyboardLayout api tid) 0) as [E|E].
  - split; [reflexivity|]. split; [contradiction|].
    intros x [= <-]. now split.
  - split; [contradiction|]. split.
    + intros _. destruct (_ =? 0); eexists; reflexivity.
    + intros x. destruct (_ =? 0); discriminate.
Qed.

Lemma get_language_raises_iff_no_layout_witness :
  get_language no_layout = Raise TypeError /\
  exists s, get_language focused_enUS = Ok s.
Proof.
  destruct (get_language_raises_iff_no_layout no_layout) as (R & _ & _).
  destruct (get_language_raises_iff_no_layout focused_enUS) as (_ & O & _).
  split; [apply R; reflexivity | apply O; vm_compute; discriminate].
Defined.

(** X2.  When the thread has a layout and its identifier does not
    translate, the answer is the diagnostic text, and the identifier read
    back from it is the low word of the layout handle. *)
Theorem get_language_diagnostic_roundtrip (api : WinAPI) :
  let tid := fst (GetWindowThreadProcessId api (GetForegroundWindow api)) in
  let hkl := GetKeyboardLayout api tid in
  hkl <> 0 ->
  fst (LCIDToLocaleName api (Z.land hkl 65535) 85 0) = 0 ->
  exists s,
    get_language api = Ok s /\
    is_langid_diagnostic s = true /\
    langid_of_diagnostic s = Some (hkl mod 65536).
Proof.
  intros tid hkl Hh Hfail. rewrite get_language_unfold.
  fold tid. fold hkl.
  destruct (Z.eqb_spec hkl 0); [contradiction|].
  rewrite Hfail, Z.eqb_refl.
  eexists. split; [reflexivity|].
  pose proof (lang_id_16bit api) as B. cbv zeta in B. fold tid in B. fold hkl in B.
  split.
  - now apply langid_diagnostic_16bit.
  - rewrite langid_roundtrip_16bit by exact B.
    change 65535 with (Z.ones 16). rewrite Z.land_ones by lia. reflexivity.
Qed.

Lemma get_language_diagnostic_roundtrip_witness :
  exists s,
    get_language (desktop 132868 69338146 1) = Ok s /\
    is_langid_diagnostic s = true /\
    langid_of_diagnostic s = Some 1058.
Proof.
  apply (get_language_diagnostic_roundtrip (desktop 132868 69338146 1));
    [vm_compute; discriminate | vm_compute; reflexivity].
Defined.

(** X3.  When the identifier translates, the answer is the locale name
    the callee wrote, cut at its first NUL and at the 85 units of the
    buffer. *)
Theorem get_language_locale_name (api : WinAPI) :
  let tid := fst (GetWindowThreadProcessId api (GetForegroundWindow api)) in
  let hkl := GetKeyboardLayout api tid in
  let answer := LCIDToLocaleName api (Z.land hkl 65535) 85 0 in
  hkl <> 0 ->
  fst answer <> 0 ->
  get_language api = Ok (value (firstn 85 (snd answer))) /\
  Forall (fun c => c <> 0) (value (firstn 85 (snd answer))) /\
  (List.length (value (firstn 85 (snd answer))) <= 85)%nat.
Proof.
  intros tid hkl answer Hh Hok. rewrite get_language_unfold.
  fold tid. fold hkl. fold answer.
  destruct (Z.eqb_spec hkl 0); [contradiction|].
  destruct (Z.eqb_spec (fst answer) 0); [contradiction|].
  split; [reflexivity|]. split.
  - apply value_has_no_nul.
  - apply value_firstn_length.
Qed.

Lemma get_language_locale_name_witness :
  get_language focused_enUS = Ok (lit "en-US").
Proof.
  apply (get_language_locale_name focused_enUS); vm_compute; discriminate.
Defined.

(** ** [map_scancode_to_char] *)

(** X4.  The text the translator returns never contains a NUL, and on a
    positive composition result it is the produced units cut at their
    first NUL and at the eight units of the buffer. *)
Theorem translated_text_is_cut (api : WinAPI) (scan_code : option Z) (s : str) :
  map_scancode_to_char api scan_code = Ok s ->
  Forall (fun c => c <> 0) s /\
  (forall sc,
     scan_code = Some sc ->
     virtual_key api sc <> 0 ->
     0 < fst (composition api sc) ->
     s = value (firstn 8 (snd (composition api sc)))).
Proof.
  destruct scan_code as [sc|]; [|discriminate].
  destruct (Z.eq_dec sc 0) as [->|Hsc]; [discriminate|].
  rewrite (map_scancode_to_char_unfold api sc Hsc), value_of_poke.
  destruct (GetForegroundWindow api =? 0); [discriminate|].
  destruct (Z.eqb_spec (virtual_key api sc) 0) as [Hv|Hv].
  { intros [= <-]. split; [constructor|]. intros ? [= <-]. contradiction. }
  destruct (fst (GetKeyboardState api) =? 0); [discriminate|].
  destruct (Z.ltb_spec 0 (fst (composition api sc))) as [Hr|Hr];
    intros [= <-].
  - split; [apply value_has_no_nul|]. now intros ? [= <-].
  - split; [constructor|]. intros ? [= <-] _ ?. lia.
Qed.

Lemma translated_text_is_cut_witness :
  repeat 97 8 = value (firstn 8 (snd (composition long_composition 30))).
Proof.
  destruct (translated_text_is_cut long_composition (Some 30) (repeat 97 8))
    as [_ Cut]; [vm_compute; reflexivity|].
  apply (Cut 30); [reflexivity | vm_compute; discriminate | vm_compute; reflexivity].
Defined.

(** ** [build_key] and [handle_event] *)

(** X5.  [build_key] never returns a record: for every environment,
    event and table of handles it raises.  When the translator raised, the
    error is the translator's and the table is untouched.  When the
    translator returned and the handle of the focused process, if one is
    opened, fits a C [int], the error is [TypeError] and the table is as
    before. *)
Theorem build_key_outcome (api : WinAPI) (key : KeyboardEvent) (hs : handles) :
  (exists e hs', build_key api key hs = (Raise e, hs')) /\
  (forall e', map_scancode_to_char api (ev_scan_code key) = Raise e' ->
              build_key api key hs = (Raise e', hs)) /\
  (forall s, map_scancode_to_char api (ev_scan_code key) = Ok s ->
             passes_as_c_int api (process_handle api) ->
             build_key api key hs = (Raise TypeError, hs)).
Proof.
  split; [apply build_key_never_returns|].
  unfold build_key, bind, lift. split.
  - now intros e' ->.
  - intros t -> Hfit.
    destruct (get_language api) as [l|e] eqn:L.
    + now destruct (get_process_name_returns api hs (or_intror Hfit)) as [w ->].
    + now apply get_language_raises_iff_no_layout_aux in L as ->.
Qed.

Lemma build_key_outcome_witness :
  build_key focused_enUS a_down [] = (Raise TypeError, []) /\
  build_key no_focus a_down []
    = (Raise (ValueError "Unknown or no foreground window"), []).
Proof.
  destruct (build_key_outcome focused_enUS a_down []) as (_ & _ & Returned).
  destruct (build_key_outcome no_focus a_down []) as (_ & Raised & _).
  split.
  - apply (Returned (lit "a")); [reflexivity|].
    repeat split; vm_compute; congruence.
  - apply Raised. reflexivity.
Defined.

(** X6.  [handle_event] never prints a record: for every environment and
    event it raises and the output is as before; when the handle of the
    focused process, if one is opened, fits a C [int], the open handles
    are as before too. *)
Theorem handle_event_prints_nothing
        (api : WinAPI) (event : KeyboardEvent) (c : console) :
  (exists e c',
      handle_event api event c = (Raise e, c') /\ printed c' = printed c) /\
  (GetForegroundWindow api = 0 \/ passes_as_c_int api (process_handle api) ->
   exists e, handle_event api event c = (Raise e, c)).
Proof.
  unfold handle_event. split.
  - destruct (build_key_never_returns api event (open_handles c))
      as (e & hs' & ->).
    now exists e, (mkConsole hs' (printed c)).
  - intros Hfit.
    destruct (build_key_never_returns_balanced api event (open_handles c) Hfit)
      as [e ->].
    exists e. now destruct c.
Qed.

Lemma handle_event_prints_nothing_witness :
  exists e,
    handle_event focused_enUS a_down (mkConsole [] [])
      = (Raise e, mkConsole [] []).
Proof.
  apply (handle_event_prints_nothing focused_enUS a_down (mkConsole [] [])).
  right. repeat split; vm_compute; congruence.
Defined.

(** X19.  When no window has focus, when [OpenProcess] gives no handle,
    or when the handle it gives fits a C [int], [get_process_name]
    returns, never raises, and the table of open handles at return is the
    one it started from, although a successful [OpenProcess] did add its
    handle to it in between; with no window in focus, a failed open or a
    failed image-path query the answer is the sentinel. *)
Theorem get_process_name_releases_small_handle
        (api : WinAPI) (hs : handles) :
  let h := process_handle api in
  GetForegroundWindow api = 0 \/ passes_as_c_int api h ->
  exists s,
    get_process_name api hs = (Ok s, hs) /\
    (h <> 0 ->
     snd (open_process api PROCESS_QUERY_LIMITED_INFORMATION false
            (snd (GetWindowThreadProcessId api (GetForegroundWindow api))) hs)
       = h :: hs) /\
    (GetForegroundWindow api = 0 -> s = lit "unknown.exe") /\
    (h = 0 -> s = lit "unknown.exe") /\
    (fst (QueryFullProcessImageNameW api h 0 260) = 0 ->
     s = lit "unknown.exe").
Proof.
  intros h Hfit.
  assert (Hopen : h <> 0 ->
            snd (open_process api PROCESS_QUERY_LIMITED_INFORMATION false
                   (snd (GetWindowThreadProcessId api (GetForegroundWindow api)))
                   hs) = h :: hs).
  { intros Hh. unfold open_process. fold (process_handle api). fold h.
    simpl. now destruct (Z.eqb_spec h 0). }
  enough (exists s,
            get_process_name api hs = (Ok s, hs) /\
            (GetForegroundWindow api = 0 -> s = lit "unknown.exe") /\
            (h = 0 -> s = lit "unknown.exe") /\
            (fst (QueryFullProcessImageNameW api h 0 260) = 0 ->
             s = lit "unknown.exe"))
    as (s & R & S1 & S2 & S3)
    by (exists s; split; [exact R | split; [exact Hopen | auto]]).
  clear Hopen. unfold get_process_name.
  rewrite restype_truthy, Bool.negb_involutive, restype_roundtrip.
  destruct (Z.eqb_spec (GetForegroundWindow api) 0) as [E|E].
  { exists (lit "unknown.exe"). auto. }
  destruct Hfit as [Hw|Hfit]; [contradiction|].
  subst h. unfold process_handle in *.
  destruct (GetWindowThreadProcessId api _) as [tid pid].
  simpl snd in *.
  set (h := OpenProcess api PROCESS_QUERY_LIMITED_INFORMATION false pid) in *.
  unfold bind, open_process. fold h.
  rewrite restype_truthy, Bool.negb_involutive.
  destruct (Z.eqb_spec h 0) as [Eh|Eh].
  { exists (lit "unknown.exe"). auto. }
  rewrite restype_roundtrip.
  change (Z.of_nat (Datatypes.length (create_unicode_buffer 260))) with 260.
  destruct (QueryFullProcessImageNameW api h 0 260) as [ok chars].
  eexists. split.
  - apply try_finally_closes; [exact Hfit | exact Eh |]. reflexivity.
  - simpl fst. split; [contradiction|]. split; [contradiction|].
    intros ->. reflexivity.
Qed.

Lemma get_process_name_releases_small_handle_witness :
  exists s,
    get_process_name focused_enUS [] = (Ok s, []) /\
    snd (open_process focused_enUS PROCESS_QUERY_LIMITED_INFORMATION false 4242 [])
      = [420].
Proof.
  destruct (get_process_name_releases_small_handle focused_enUS [])
    as (s & R & Opened & _).
  - right. repeat split; vm_compute; congruence.
  - exists s. split; [exact R|].
    apply Opened. vm_compute; discriminate.
Defined.

(** ** [get_wnd_title] *)

(** X7.  [get_wnd_title] answers the text no title when no window has
    focus, when the reported length is not positive, or when the copy
    reports zero characters; otherwise it answers what was copied, cut at
    the first NUL and at the reported length plus one. *)
Theorem get_wnd_title_cases (api : WinAPI) (txt : WindowText) :
  let hwnd := GetForegroundWindow api in
  let len := GetWindowTextLengthW txt hwnd in
  let copy := GetWindowTextW txt hwnd (len + 1) in
  (hwnd = 0 -> get_wnd_title api txt = lit "no title") /\
  (len <= 0 -> get_wnd_title api txt = lit "no title") /\
  (fst copy = 0 -> get_wnd_title api txt = lit "no title") /\
  (hwnd <> 0 -> 0 < len -> fst copy <> 0 ->
   get_wnd_title api txt = value (firstn (Z.to_nat (len + 1)) (snd copy)) /\
   Forall (fun c => c <> 0) (get_wnd_title api txt) /\
   Z.of_nat (List.length (get_wnd_title api txt)) <= len + 1).
Proof.
  intros hwnd len copy.
  assert (U : get_wnd_title api txt =
              if hwnd =? 0 then lit "no title"
              else if 0 <? len then
                     if fst copy =? 0 then lit "no title"
                     else value (firstn (Z.to_nat (len + 1)) (snd copy))
                   else lit "no title").
  { unfold get_wnd_title. rewrite restype_truthy, restype_roundtrip.
    fold hwnd. destruct (hwnd =? 0); [reflexivity|]. simpl negb. cbv iota.
    fold len. destruct (0 <? len); [|reflexivity].
    fold copy. destruct copy as [copied chars]. simpl fst. simpl snd.
    rewrite value_of_poke. now destruct (copied =? 0). }
  rewrite U. repeat split.
  - intros ->. reflexivity.
  - intros Hl. destruct (hwnd =? 0); [reflexivity|].
    now destruct (Z.ltb_spec 0 len); [lia|].
  - intros ->. destruct (hwnd =? 0); [reflexivity|].
    now destruct (0 <? len).
  - destruct (Z.eqb_spec hwnd 0); [contradiction|].
    destruct (Z.ltb_spec 0 len); [|lia].
    now destruct (Z.eqb_spec (fst copy) 0).
  - destruct (Z.eqb_spec hwnd 0); [contradiction|].
    destruct (Z.ltb_spec 0 len); [|lia].
    destruct (Z.eqb_spec (fst copy) 0); [contradiction|].
    apply value_has_no_nul.
  - destruct (Z.eqb_spec hwnd 0); [contradiction|].
    destruct (Z.ltb_spec 0 len); [|lia].
    destruct (Z.eqb_spec (fst copy) 0); [contradiction|].
    pose proof (value_firstn_length (Z.to_nat (len + 1)) (snd copy)). lia.
Qed.

Lemma get_wnd_title_cases_witness :
  get_wnd_title focused_enUS
    {| GetWindowTextLengthW := fun _ => 5;
       GetWindowTextW := fun _ _ => (5, lit "Notes") |} = lit "Notes".
Proof.
  apply (get_wnd_title_cases focused_enUS
           {| GetWindowTextLengthW := fun _ => 5;
              GetWindowTextW := fun _ _ => (5, lit "Notes") |});
    [vm_compute; discriminate | reflexivity | vm_compute; discriminate].
Defined.

End KeyControllerMore.

(* ===================================================================== *)
(** * Facts about the text operations                                    *)
(* ===================================================================== *)

Module TextFacts.
Import Py Readers.

Lemma unlit_lit (x : string) : unlit (lit x) = x.
Proof.
  unfold unlit, lit. rewrite map_map.
  rewrite (map_ext _ (fun a => a)), map_id.
  - apply string_of_list_ascii_of_string.
  - intros a. now rewrite N2Z.id, ascii_N_embedding.
Qed.

(** [int(str(n)) == n] *)
Lemma int_of_str_of_int (n : Z) : int_of_str (str_of_int n) = Some n.
Proof.
  unfold int_of_str, str_of_int. rewrite unlit_lit.
  rewrite DecimalString.NilZero.isi.
  - simpl. now rewrite DecimalZ.of_to.
  - destruct n; simpl; try discriminate.
    intros [= H]. now apply DecimalPos.Unsigned.to_uint_nonnil in H.
  - destruct n; simpl; try discriminate.
    intros [= H]. now apply DecimalPos.Unsigned.to_uint_nonnil in H.
Qed.

Lemma str_of_int_inj (n m : Z) : str_of_int n = str_of_int m -> n = m.
Proof.
  intros H. apply (f_equal int_of_str) in H.
  rewrite !int_of_str_of_int in H. now injection H.
Qed.

Lemma uint_digits (d : Decimal.uint) :
  forallb isdigit (lit (DecimalString.NilEmpty.string_of_uint d)) = true.
Proof. induction d; simpl; auto. Qed.

(** The decimal text of a natural number is made of digits, at least
    one. *)
Lemma str_of_int_digits (n : Z) :
  0 <= n ->
  forallb isdigit (str_of_int n) = true /\ str_of_int n <> [].
Proof.
  intros Hn. unfold str_of_int.
  destruct n as [|p|p]; [split; [reflexivity | discriminate] | | lia].
  simpl Z.to_int. unfold DecimalString.NilZero.string_of_int,
    DecimalString.NilZero.string_of_uint.
  pose proof (DecimalPos.Unsigned.to_uint_nonnil p) as Hnil.
  destruct (Pos.to_uint p) eqn:E; try contradiction;
    (split; [rewrite <- E at 1; rewrite <- E in *; clear E | discriminate]).
  all: try (apply uint_digits).
Qed.

(** *** Trimming *)

Lemma lstrip_split (s : str) :
  exists w, s = w ++ lstrip s /\ forallb isspace w = true.
Proof.
  induction s as [|c s (w & Hs & Hw)]; simpl.
  - exists []. now split.
  - destruct (isspace c) eqn:E.
    + exists (c :: w). simpl. rewrite E, Hw. split; [now f_equal | reflexivity].
    + exists []. now split.
Qed.

Lemma lstrip_head (s : str) (c : Z) (r : str) :
  lstrip s = c :: r -> isspace c = false.
Proof.
  induction s as [|x s IH]; simpl; [discriminate|].
  destruct (isspace x) eqn:E; [exact IH|]. now intros [= <- <-].
Qed.

Lemma rstrip_split (s : str) :
  exists w, s = rstrip s ++ w /\ forallb isspace w = true.
Proof.
  unfold rstrip. destruct (lstrip_split (rev s)) as (w & Hs & Hw).
  exists (rev w). split.
  - rewrite <- (rev_involutive s), Hs at 1. now rewrite rev_app_distr.
  - rewrite forallb_forall in *. intros x Hx. apply Hw. now apply in_rev.
Qed.

Lemma rstrip_no_trailing_space (s : str) :
  no_trailing_space (rstrip s) = true.
Proof.
  unfold no_trailing_space, rstrip. rewrite rev_involutive.
  destruct (lstrip (rev s)) as [|c r] eqn:E; [reflexivity|].
  now rewrite (lstrip_head _ _ _ E).
Qed.

(** What [strip] returns neither begins nor ends with white space, and
    is a piece of the text it was given. *)
Lemma strip_spec (s : str) :
  no_trailing_space (strip s) = true /\
  (forall c r, strip s = c :: r -> isspace c = false) /\
  exists a b, s = a ++ strip s ++ b /\
              forallb isspace a = true /\ forallb isspace b = true.
Proof.
  unfold strip. split; [apply rstrip_no_trailing_space|].
  destruct (lstrip_split s) as (a & Ha & Hwa).
  destruct (rstrip_split (lstrip s)) as (b & Hb & Hwb).
  split.
  - intros c r E. rewrite E in Hb.
    apply (lstrip_head s c (r ++ b)). exact Hb.
  - exists a, b. split; [|now split].
    now rewrite <- Hb.
Qed.

Lemma startswith_app (p s t : str) :
  startswith p s = true -> startswith p (s ++ t) = true.
Proof.
  revert s. induction p as [|x p IH]; intros [|y s]; simpl; auto;
    [discriminate|].
  intros H. apply andb_prop in H as [-> H]. simpl. now apply IH.
Qed.

Lemma startswith_prefix (p s : str) : startswith p (p ++ s) = true.
Proof. induction p as [|x p IH]; simpl; [|rewrite Z.eqb_refl]; auto. Qed.

Lemma str_eqb_eq (a b : str) : str_eqb a b = true -> a = b.
Proof.
  revert b. induction a as [|x a IH]; intros [|y b]; simpl;
    try discriminate; auto.
  intros H. apply andb_prop in H as [E H].
  apply Z.eqb_eq in E. subst. f_equal. now apply IH.
Qed.

Lemma str_eqb_refl (a : str) : str_eqb a a = true.
Proof. induction a as [|x a IH]; simpl; [|rewrite Z.eqb_refl]; auto. Qed.

(** *** Splitting on a separator *)

Lemma split_on_from_no_sep (sep : Z) (cur s : str) :
  Forall (fun c => c <> sep) s ->
  split_on_from sep cur s = [rev cur ++ s].
Proof.
  intros H. revert cur. induction H as [|c s Hc _ IH]; intros cur; simpl.
  - now rewrite app_nil_r.
  - destruct (Z.eqb_spec c sep); [contradiction|].
    rewrite IH. simpl. now rewrite <- app_assoc.
Qed.

Lemma split_on_from_app (sep : Z) (cur a r : str) :
  split_on_from sep cur (a ++ sep :: r)
    = split_on_from sep cur a ++ split_on_from sep [] r.
Proof.
  revert cur. induction a as [|c a IH]; intros cur; simpl.
  - now rewrite Z.eqb_refl.
  - destruct (c =? sep); simpl; now rewrite IH.
Qed.

(** The last but one piece of a text whose last two separators enclose
    [u]. *)
Lemma split_on_last_but_one (sep : Z) (a u b : str) :
  Forall (fun c => c <> sep) u ->
  Forall (fun c => c <> sep) b ->
  item_from_end (split_on sep (a ++ sep :: u ++ sep :: b)) 2 = Ok u.
Proof.
  intros Hu Hb. unfold split_on, item_from_end.
  rewrite split_on_from_app, split_on_from_app.
  rewrite (split_on_from_no_sep sep [] u Hu), (split_on_from_no_sep sep [] b Hb).
  rewrite !rev_app_distr. reflexivity.
Qed.

Lemma split_on_single (sep : Z) (s : str) :
  Forall (fun c => c <> sep) s ->
  item_from_end (split_on sep s) 2 = Raise IndexError.
Proof.
  intros H. unfold split_on. now rewrite split_on_from_no_sep.
Qed.

Lemma startswith_weaken (p q s : str) :
  startswith (p ++ q) s = true -> startswith p s = true.
Proof.
  revert s. induction p as [|x p IH]; intros s; [reflexivity|].
  destruct s as [|y s]; simpl; [discriminate|].
  intros H. apply andb_prop in H as [-> H]. simpl. now apply IH.
Qed.

(** *** Lines and words *)

Lemma linebreak_is_space (c : Z) : islinebreak c = true -> isspace c = true.
Proof.
  unfold islinebreak, isspace.
  rewrite !Bool.orb_true_iff, !Bool.andb_true_iff, !Z.leb_le, !Z.eqb_eq.
  lia.
Qed.

Lemma forallb_rev {A} (f : A -> bool) (l : list A) :
  forallb f (rev l) = forallb f l.
Proof.
  induction l as [|x l IH]; [reflexivity|].
  simpl. rewrite forallb_app, IH. simpl. rewrite Bool.andb_true_r.
  apply Bool.andb_comm.
Qed.

(** After a carriage return the line read so far is closed, and reading
    goes on after the line feed that may follow. *)
Lemma splitlines_from_cr (cur s : str) :
  exists s',
    splitlines_from cur (13 :: s) = rev cur :: splitlines_from [] s' /\
    (List.length s' <= List.length s)%nat.
Proof.
  destruct s as [|d s]; [exists []; split; [reflexivity | simpl; lia]|].
  destruct (Z.eq_dec d 10) as [->|Hd];
    [exists s; split; [reflexivity | simpl; lia]|].
  exists (d :: s). split; [|lia].
  destruct d as [|q|q]; try reflexivity.
  repeat (destruct q as [q|q|]; try reflexivity).
  contradiction.
Qed.

(** No line returned by [splitlines] contains a line boundary. *)
Lemma splitlines_from_single_line (s cur : str) :
  single_line cur = true ->
  Forall (fun l => single_line l = true) (splitlines_from cur s).
Proof.
  assert (Emit : forall cur, single_line cur = true ->
                             single_line (rev cur) = true)
    by (intros c0 H; unfold single_line in *; now rewrite forallb_rev).
  remember (List.length s) as n eqn:Hn.
  revert s cur Hn. induction n as [n IH] using lt_wf_ind.
  intros s cur Hn Hcur. destruct s as [|c s].
  - simpl. destruct cur; repeat constructor. now apply Emit.
  - destruct (Z.eq_dec c 13) as [->|Hc].
    + destruct (splitlines_from_cr cur s) as (s' & -> & Hlen).
      constructor; [now apply Emit|].
      apply (IH (List.length s')); simpl in *; auto; lia.
    + change (splitlines_from cur (c :: s))
        with (if c =? 13 then
                match s with
                | 10 :: s'' => rev cur :: splitlines_from [] s''
                | _ => rev cur :: splitlines_from [] s
                end
              else if islinebreak c then rev cur :: splitlines_from [] s
              else splitlines_from (c :: cur) s).
      destruct (Z.eqb_spec c 13); [contradiction|].
      destruct (islinebreak c) eqn:E.
      * constructor; [now apply Emit|].
        apply (IH (List.length s)); simpl in *; auto; lia.
      * apply (IH (List.length s)); simpl in *; auto; try lia.
        unfold single_line in *. simpl. now rewrite E.
Qed.

(** No word returned by [split] contains white space, and none is
    empty. *)
Lemma split_ws_from_words (s cur : str) :
  forallb (fun c => negb (isspace c)) cur = true ->
  Forall (fun w => forallb (fun c => negb (isspace c)) w = true /\ w <> [])
         (split_ws_from cur s).
Proof.
  assert (Emit : forall c0 : str,
             forallb (fun c => negb (isspace c)) c0 = true -> c0 <> [] ->
             forallb (fun c => negb (isspace c)) (rev c0) = true /\ rev c0 <> []).
  { intros c0 H Hne. rewrite forallb_rev. split; [exact H|].
    intros E. apply (f_equal (@rev Z)) in E. rewrite rev_involutive in E.
    contradiction. }
  revert cur. induction s as [|c s IH]; intros cur Hcur; simpl.
  - destruct cur as [|x cur]; repeat constructor;
      apply Emit; [exact Hcur | discriminate | exact Hcur | discriminate].
  - destruct (isspace c) eqn:E.
    + destruct cur as [|x cur]; [now apply IH|].
      constructor; [apply Emit; [exact Hcur|discriminate] | now apply IH].
    + apply IH. simpl. now rewrite E.
Qed.

Lemma word_is_tidy (w : str) :
  forallb (fun c => negb (isspace c)) w = true ->
  single_line w = true /\ no_trailing_space w = true.
Proof.
  intros H. split.
  - unfold single_line. rewrite forallb_forall in *. intros c Hc.
    specialize (H c Hc). destruct (islinebreak c) eqn:E; [|reflexivity].
    apply linebreak_is_space in E. now rewrite E in H.
  - unfold no_trailing_space. destruct (rev w) as [|c r] eqn:E; [reflexivity|].
    rewrite forallb_forall in H. apply H, in_rev. rewrite E. now left.
Qed.

Lemma single_line_app (a b : str) :
  single_line (a ++ b) = single_line a && single_line b.
Proof. apply forallb_app. Qed.

Lemma strip_single_line (s : str) :
  single_line s = true -> single_line (strip s) = true.
Proof.
  intros H. destruct (strip_spec s) as (_ & _ & a & b & E & _ & _).
  rewrite E, !single_line_app in H.
  apply andb_prop in H as [_ H]. now apply andb_prop in H as [H _].
Qed.

(** The decimal text of any integer: digits after an optional sign. *)
Lemma str_of_int_chars (n : Z) :
  forallb (fun c => isdigit c || (c =? 45)) (str_of_int n) = true
  /\ str_of_int n <> [].
Proof.
  destruct (Z.le_gt_cases 0 n) as [H|H].
  - destruct (str_of_int_digits n H) as [D Ne]. split; [|exact Ne].
    rewrite forallb_forall in *. intros c Hc. now rewrite (D c Hc).
  - destruct n as [|p|p]; try lia.
    assert (E : str_of_int (Z.neg p)
                = 45 :: lit (DecimalString.NilEmpty.string_of_uint
                               (Pos.to_uint p))).
    { unfold str_of_int. simpl Z.to_int.
      unfold DecimalString.NilZero.string_of_int,
        DecimalString.NilZero.string_of_uint.
      pose proof (DecimalPos.Unsigned.to_uint_nonnil p) as Hnil.
      destruct (Pos.to_uint p); try contradiction; reflexivity. }
    rewrite E. split; [|discriminate].
    cbn [forallb]. apply Bool.andb_true_iff. split; [reflexivity|].
    pose proof (uint_digits (Pos.to_uint p)) as D.
    rewrite forallb_forall in *. intros c Hc. now rewrite (D c Hc).
Qed.

Lemma startswith_elim (p s : str) :
  startswith p s = true -> exists r, s = p ++ r.
Proof.
  revert s. induction p as [|x p IH]; intros s; [now exists s|].
  destruct s as [|y s]; simpl; [discriminate|].
  intros H. apply andb_prop in H as [E H]. apply Z.eqb_eq in E. subst y.
  destruct (IH s H) as [r ->]. now exists r.
Qed.

(** Where the carriage return leaves the reader. *)
Lemma splitlines_from_cr_rest (cur s : str) :
  exists s',
    splitlines_from cur (13 :: s) = rev cur :: splitlines_from [] s' /\
    (s = s' \/ s = 10 :: s').
Proof.
  destruct s as [|d s]; [exists []; split; [reflexivity | now left]|].
  destruct (Z.eq_dec d 10) as [->|Hd];
    [exists s; split; [reflexivity | now right]|].
  exists (d :: s). split; [|now left].
  destruct d as [|q|q]; try reflexivity.
  repeat (destruct q as [q|q|]; try reflexivity).
  contradiction.
Qed.

(** Every line returned by [splitlines] sits in the text either at its
    start or right after a white-space character. *)
Lemma splitlines_from_position (s cur line : str) :
  In line (splitlines_from cur s) ->
  (exists after, rev cur ++ s = line ++ after) \/
  (exists before c after,
      s = before ++ c :: line ++ after /\ isspace c = true).
Proof.
  remember (List.length s) as n eqn:Hn.
  revert s cur Hn. induction n as [n IH] using lt_wf_ind.
  intros s cur Hn. destruct s as [|c s].
  - simpl. destruct cur as [|x cur]; [intros []|].
    intros [<-|[]]. left. now exists [].
  - assert (Later : forall s' pre,
              c :: s = pre ++ s' -> pre <> [] ->
              (exists x pre', pre = pre' ++ [x] /\ isspace x = true) ->
              In line (splitlines_from [] s') ->
              exists before c0 after,
                c :: s = before ++ c0 :: line ++ after /\ isspace c0 = true).
    { intros s' pre E Hne (x & pre' & -> & Hx) Hin.
      assert (Hlen : (List.length s' < n)%nat).
      { subst n. rewrite E, !length_app. simpl. lia. }
      destruct (IH _ Hlen s' [] eq_refl Hin)
        as [(after & Ea) | (before & c0 & after & Eb & Hc0)].
      - simpl in Ea. exists pre', x, after. split; [|exact Hx].
        rewrite E, Ea, <- app_assoc. reflexivity.
      - exists (pre' ++ x :: before), c0, after. split; [|exact Hc0].
        rewrite E, Eb, <- !app_assoc. reflexivity. }
    destruct (Z.eq_dec c 13) as [->|Hc].
    + destruct (splitlines_from_cr_rest cur s) as (s' & -> & Hs').
      intros [<-|Hin]; [left; now exists (13 :: s)|].
      right. destruct Hs' as [->| ->].
      * apply (Later s' [13]); auto; [discriminate|].
        exists 13, []. now split.
      * apply (Later s' [13; 10]); auto; [discriminate|].
        exists 10, [13]. now split.
    + change (splitlines_from cur (c :: s))
        with (if c =? 13 then
                match s with
                | 10 :: s'' => rev cur :: splitlines_from [] s''
                | _ => rev cur :: splitlines_from [] s
                end
              else if islinebreak c then rev cur :: splitlines_from [] s
              else splitlines_from (c :: cur) s).
      destruct (Z.eqb_spec c 13); [contradiction|].
      destruct (islinebreak c) eqn:E.
      * intros [<-|Hin]; [left; now exists (c :: s)|].
        right. apply (Later s [c]); auto; [discriminate|].
        exists c, []. split; [reflexivity | now apply linebreak_is_space].
      * intros Hin.
        assert (Hlen : (List.length s < n)%nat) by (subst n; simpl; lia).
        destruct (IH _ Hlen s (c :: cur) eq_refl Hin)
          as [(after & Ea) | (before & c0 & after & Eb & Hc0)].
        -- left. exists after. simpl in Ea. now rewrite <- app_assoc in Ea.
        -- right. exists (c :: before), c0, after. split; [|exact Hc0].
           now rewrite Eb.
Qed.

(** After a white-space character the word reader starts afresh. *)
Lemma split_ws_from_restart (pre : str) (c : Z) (rest cur : str) :
  isspace c = true ->
  exists words,
    split_ws_from cur (pre ++ c :: rest) = words ++ split_ws_from [] rest.
Proof.
  intros Hc. revert cur. induction pre as [|x pre IH]; intros cur.
  - simpl. rewrite Hc. destruct cur; [now exists [] | now eexists [_]].
  - simpl. destruct (isspace x).
    + destruct cur as [|y cur].
      * apply IH.
      * destruct (IH []) as [words ->]. now exists (rev (y :: cur) :: words).
    + apply IH.
Qed.

(** A word under way is completed, never dropped. *)
Lemma split_ws_from_pending (rest cur : str) :
  cur <> [] ->
  exists tail words, split_ws_from cur rest = (rev cur ++ tail) :: words.
Proof.
  revert cur. induction rest as [|c rest IH]; intros cur Hne.
  - simpl. destruct cur; [contradiction|]. exists [], []. now rewrite app_nil_r.
  - simpl. destruct (isspace c).
    + destruct cur; [contradiction|]. exists [], (split_ws_from [] rest).
      now rewrite app_nil_r.
    + destruct (IH (c :: cur)) as (tail & words & ->); [discriminate|].
      exists (c :: tail), words. simpl. now rewrite <- app_assoc.
Qed.

(** Text that begins with the marker of a security identifier begins a
    word that has the marker too. *)
Lemma split_ws_marker_word (rest : str) :
  startswith (lit "S-1-") rest = true ->
  exists w words,
    split_ws_from [] rest = w :: words /\ startswith (lit "S-1-") w = true.
Proof.
  intros H. apply startswith_elim in H as [r ->].
  change (split_ws_from [] (lit "S-1-" ++ r))
    with (split_ws_from [45; 49; 45; 83] r).
  destruct (split_ws_from_pending r [45; 49; 45; 83])
    as (tail & words & ->); [discriminate|].
  exists (rev [45; 49; 45; 83] ++ tail), words. split; reflexivity.
Qed.

Ltac list_flat :=
  repeat first [rewrite <- app_assoc | rewrite <- app_comm_cons
               | rewrite app_nil_l].

(** A line whose trimmed text begins with the marker contributes a word
    that begins with it. *)
Lemma marker_line_has_marker_word (out line : str) :
  In line (splitlines out) ->
  startswith (lit "S-1-") (strip line) = true ->
  exists w, In w (split_ws out) /\ startswith (lit "S-1-") w = true.
Proof.
  intros Hin Hm.
  destruct (strip_spec line) as (_ & _ & a & b & Eline & Ha & _).
  assert (Found : forall rest,
            startswith (lit "S-1-") rest = true ->
            (out = rest \/
             exists pre c, out = pre ++ c :: rest /\ isspace c = true) ->
            exists w, In w (split_ws out) /\ startswith (lit "S-1-") w = true).
  { intros rest Hr [->|(pre & c & -> & Hc)].
    - destruct (split_ws_marker_word rest Hr) as (w & words & E & Hw).
      exists w. unfold split_ws. rewrite E. split; [now left | exact Hw].
    - destruct (split_ws_from_restart pre c rest [] Hc) as [words E].
      destruct (split_ws_marker_word rest Hr) as (w & words' & E' & Hw).
      exists w. unfold split_ws. rewrite E, E'. split; [|exact Hw].
      apply in_or_app. right. now left. }
  assert (Last : a = [] \/ exists a' c, a = a' ++ [c] /\ isspace c = true).
  { destruct a as [|x a0]; [now left|]. right.
    destruct (exists_last (l := x :: a0)) as (a' & c & E); [discriminate|].
    exists a', c. split; [exact E|].
    rewrite forallb_forall in Ha. apply Ha. rewrite E.
    apply in_or_app. right. now left. }
  destruct (splitlines_from_position out [] line Hin)
    as [(after & E) | (before & c & after & E & Hc)]; simpl in E;
    remember (strip line) as t eqn:Et; clear Et; subst line.
  - apply (Found (t ++ b ++ after)); [now apply startswith_app|].
    destruct Last as [->|(a' & x & -> & Hx)].
    + left. rewrite E. now list_flat.
    + right. exists a', x. split; [|exact Hx]. rewrite E. now list_flat.
  - apply (Found (t ++ b ++ after)); [now apply startswith_app|].
    right. destruct Last as [->|(a' & x & -> & Hx)].
    + exists before, c. split; [|exact Hc]. rewrite E. now list_flat.
    + exists (before ++ c :: a'), x. split; [|exact Hx].
      rewrite E. now list_flat.
Qed.

End TextFacts.

(* ===================================================================== *)
(** * Further properties of the identity resolvers                       *)
(* ===================================================================== *)

Module SystemInfoMore.
Import Py Props Readers Samples MoreSamples SystemInfo TextFacts SystemInfoFacts.

Lemma linux_is_not_win (platform : str) :
  startswith (lit "linux") platform = true ->
  startswith (lit "win") platform = false.
Proof.
  destruct platform as [|c r]; [discriminate|].
  change (startswith (lit "linux") (c :: r))
    with ((108 =? c) && startswith (lit "inux") r).
  intros H. apply andb_prop in H as [E _]. apply Z.eqb_eq in E. now subst c.
Qed.

Lemma no_trailing_space_tagged (tag body : str) :
  no_trailing_space tag = true -> tag <> [] ->
  no_trailing_space body = true ->
  no_trailing_space (tag ++ body) = true.
Proof.
  unfold no_trailing_space. intros Ht Hne Hb. rewrite rev_app_distr.
  destruct (rev body) as [|c r]; simpl; [|exact Hb].
  destruct (rev tag) as [|c r] eqn:E; [|exact Ht].
  apply (f_equal (@rev Z)) in E. rewrite rev_involutive in E. contradiction.
Qed.

(** ** The device identifier on Linux *)

(** X8.  On Linux the first machine-id file that can be read decides:
    [/etc/machine-id] when it is readable, [/var/lib/dbus/machine-id] only
    when the first is not.  The identifier is the tag followed by the
    content with surrounding white space removed, so it never ends with
    white space, and the process is left as it was (no node is asked
    for). *)
Theorem linux_machine_id_order (host : Host) (p : process) :
  startswith (lit "linux") (sys_platform host) = true ->
  let first := open_read host (lit "/etc/machine-id") in
  let second := open_read host (lit "/var/lib/dbus/machine-id") in
  (forall t, first = Ok t ->
     _get_device_id host p = (Ok (lit "linux:" ++ strip t), p) /\
     no_trailing_space (lit "linux:" ++ strip t) = true) /\
  (forall e t, first = Raise e -> second = Ok t ->
     _get_device_id host p = (Ok (lit "linux:" ++ strip t), p) /\
     no_trailing_space (lit "linux:" ++ strip t) = true).
Proof.
  intros Hl first second.
  assert (Tidy : forall t, no_trailing_space (lit "linux:" ++ strip t) = true).
  { intros t. apply no_trailing_space_tagged;
      [reflexivity | discriminate | apply strip_spec]. }
  unfold _get_device_id, device_id_branch.
  rewrite (linux_is_not_win _ Hl), Hl.
  simpl machine_id_from. unfold bind, try_except, lift, ret.
  fold first. fold second.
  split.
  - intros t ->. now split.
  - intros e t -> ->. now split.
Qed.

Lemma linux_machine_id_order_witness :
  _get_device_id (machine (lit "linux") (Raise OSError) None) fresh_process
    = (Ok (lit "linux:4c4c4544003957108052b4c04f384833"), fresh_process).
Proof.
  destruct (linux_machine_id_order
              (machine (lit "linux") (Raise OSError) None) fresh_process)
    as [First _]; [reflexivity|].
  destruct (First (lit "4c4c4544003957108052b4c04f384833" ++ [10]))
    as [R _]; [reflexivity|].
  exact R.
Defined.

(** ** The device identifier on macOS *)

Lemma platform_uuid_from_skips (skipped rest : list str) :
  Forall (fun l => contains (lit "IOPlatformUUID") l = false) skipped ->
  platform_uuid_from (skipped ++ rest) = platform_uuid_from rest.
Proof.
  induction 1 as [|l skipped Hl _ IH]; [reflexivity|].
  change (platform_uuid_from ((l :: skipped) ++ rest))
    with (if contains (lit "IOPlatformUUID") l
          then field <~ item_from_end (split_on 34 l) 2 ;;
               Ok (Some (lit "mac:" ++ field))
          else platform_uuid_from (skipped ++ rest)).
  now rewrite Hl.
Qed.

Lemma platform_uuid_from_hit (line : str) (rest : list str) :
  contains (lit "IOPlatformUUID") line = true ->
  platform_uuid_from (line :: rest)
    = (field <~ item_from_end (split_on 34 line) 2 ;;
       Ok (Some (lit "mac:" ++ field))).
Proof.
  intros H.
  change (platform_uuid_from (line :: rest))
    with (if contains (lit "IOPlatformUUID") line
          then field <~ item_from_end (split_on 34 line) 2 ;;
               Ok (Some (lit "mac:" ++ field))
          else platform_uuid_from rest).
  now rewrite H.
Qed.

Lemma darwin_branch (host : Host) (p : process) (out : str) :
  sys_platform host = lit "darwin" ->
  check_output host ioreg_command false = Ok out ->
  device_id_branch host p =
    try_except (lift (platform_uuid_from (splitlines out)))
               (fun _ => ret None) p.
Proof.
  intros Hp Hout. unfold device_id_branch. rewrite Hp.
  change (startswith (lit "win") (lit "darwin")) with false.
  change (startswith (lit "linux") (lit "darwin")) with false.
  change (str_eqb (lit "darwin") (lit "darwin")) with true.
  cbv iota. unfold try_except, bind, lift, ioreg_command in *.
  now rewrite Hout.
Qed.

(** X9.  On macOS the identifier is taken from the first line of the
    utility's output that mentions IOPlatformUUID, and is the text between
    the last two double quotes of that line; lines before it that do not
    mention the key are passed over and the lines after it are not looked
    at. *)
Theorem mac_platform_uuid
        (host : Host) (p : process) (out : str)
        (skipped rest : list str) (a u b : str) :
  sys_platform host = lit "darwin" ->
  check_output host ioreg_command false = Ok out ->
  splitlines out = skipped ++ (a ++ 34 :: u ++ 34 :: b) :: rest ->
  Forall (fun l => contains (lit "IOPlatformUUID") l = false) skipped ->
  contains (lit "IOPlatformUUID") (a ++ 34 :: u ++ 34 :: b) = true ->
  Forall (fun c => c <> 34) u ->
  Forall (fun c => c <> 34) b ->
  _get_device_id host p = (Ok (lit "mac:" ++ u), p).
Proof.
  intros Hp Hout Hlines Hskip Hkey Hu Hb.
  unfold _get_device_id, bind.
  rewrite (darwin_branch host p out Hp Hout), Hlines.
  rewrite (platform_uuid_from_skips _ _ Hskip).
  rewrite (platform_uuid_from_hit _ _ Hkey).
  rewrite (split_on_last_but_one 34 a u b Hu Hb). reflexivity.
Qed.

(** X10.  When the first line that mentions IOPlatformUUID contains no
    double quote, the scan stops there: the indexing error is absorbed and
    the identifier is the fallback one, whatever the following lines
    hold. *)
Theorem mac_key_line_without_quotes
        (host : Host) (p : process) (out : str)
        (skipped rest : list str) (line : str) :
  sys_platform host = lit "darwin" ->
  check_output host ioreg_command false = Ok out ->
  splitlines out = skipped ++ line :: rest ->
  Forall (fun l => contains (lit "IOPlatformUUID") l = false) skipped ->
  contains (lit "IOPlatformUUID") line = true ->
  Forall (fun c => c <> 34) line ->
  exists n p',
    _get_device_id host p = (Ok (lit "fb_mac:" ++ str_of_int n), p').
Proof.
  intros Hp Hout Hlines Hskip Hkey Hq.
  unfold _get_device_id, bind.
  rewrite (darwin_branch host p out Hp Hout), Hlines.
  rewrite (platform_uuid_from_skips _ _ Hskip).
  rewrite (platform_uuid_from_hit _ _ Hkey).
  rewrite (split_on_single 34 line Hq).
  unfold try_except, lift, rbind, ret.
  destruct (getnode_returns host p) as (n & p' & -> & _ & _).
  now exists n, p'.
Qed.

(** ** Identifiers that carry a number *)

(** X11.  On a platform other than Windows, when the user identifier can
    be read, the account identifier is the tag followed by its decimal
    text: the number can be read back from it, it differs from the
    sentinel, and for a non-negative identifier only digits follow the
    tag. *)
Theorem posix_account_id_reads_back (host : Host) (uid : Z) :
  startswith (lit "win") (sys_platform host) = false ->
  os_getuid host = Ok uid ->
  exists s,
    _get_account_id host = Ok s /\
    startswith (lit "uid:") s = true /\
    int_of_str (skipn 4 s) = Some uid /\
    s <> lit "uid:unknown" /\
    (0 <= uid -> forallb isdigit (skipn 4 s) = true).
Proof.
  intros Hp Hu. unfold _get_account_id. rewrite Hp, Hu.
  exists (lit "uid:" ++ str_of_int uid).
  split; [reflexivity|]. split; [reflexivity|].
  change (skipn 4 (lit "uid:" ++ str_of_int uid)) with (str_of_int uid).
  split; [apply int_of_str_of_int|]. split.
  - intros H. apply (f_equal (fun t => int_of_str (skipn 4 t))) in H.
    change (skipn 4 (lit "uid:" ++ str_of_int uid)) with (str_of_int uid) in H.
    rewrite int_of_str_of_int in H. discriminate.
  - intros H0. now apply str_of_int_digits.
Qed.

Lemma posix_account_id_reads_back_witness :
  exists s,
    _get_account_id bsd_no_hardware = Ok s /\
    int_of_str (skipn 4 s) = Some 1000.
Proof.
  destruct (posix_account_id_reads_back bsd_no_hardware 1000)
    as (s & R & _ & B & _); [reflexivity | reflexivity |].
  now exists s.
Defined.

(** X12.  Whenever the device identifier is the fallback one, the number
    after the tag is the node the process remembers afterwards.  It is the
    node remembered before, if there was one, and then nothing in the
    process changes; otherwise the hardware node if the host has one;
    otherwise a number drawn at random with bit 40 set, and one draw is
    counted. *)
Theorem fallback_id_carries_the_node
        (host : Host) (p p' : process) (s : str) :
  _get_device_id host p = (Ok s, p') ->
  startswith (lit "fb_mac:") s = true ->
  exists n,
    s = lit "fb_mac:" ++ str_of_int n /\
    int_of_str (skipn 7 s) = Some n /\
    uuid_node p' = Some n /\
    (forall m, uuid_node p = Some m -> n = m /\ p' = p) /\
    (forall h, uuid_node p = None -> uuid_hardware_node host = Some h ->
               n = h /\ draws p' = draws p) /\
    (uuid_node p = None -> uuid_hardware_node host = None ->
     Z.testbit n 40 = true /\ draws p' = S (draws p)).
Proof.
  intros H Hfb.
  destruct (get_device_id_cases host p)
    as [(t & v & Ht & _ & H') | (n & q & Hb & _ & _ & H')].
  { rewrite H' in H. injection H as <- <-. simpl in Ht.
    destruct Ht as [<-|[<-|[<-|[]]]]; discriminate. }
  clear H'. unfold _get_device_id, bind in H. rewrite Hb in H.
  unfold getnode, ret in H.
  destruct (uuid_node p) as [m|] eqn:Em.
  - injection H as <- <-. exists m.
    change (skipn 7 (lit "fb_mac:" ++ str_of_int m)) with (str_of_int m).
    repeat split; try discriminate; try apply int_of_str_of_int; auto;
      congruence.
  - destruct (uuid_hardware_node host) as [h|] eqn:Eh;
      injection H as <- <-; eexists;
      (split; [reflexivity|]);
      change (skipn 7 (lit "fb_mac:" ++ str_of_int ?x)) with (str_of_int x);
      (split; [apply int_of_str_of_int|]); (split; [reflexivity|]);
      repeat split; try discriminate; try congruence.
    rewrite Z.lor_spec. apply Bool.orb_true_iff. right. reflexivity.
Qed.

Lemma fallback_id_carries_the_node_witness :
  exists n,
    fst (_get_device_id bsd_no_hardware fresh_process)
      = Ok (lit "fb_mac:" ++ str_of_int n) /\
    Z.testbit n 40 = true.
Proof.
  destruct (fallback_id_carries_the_node bsd_no_hardware fresh_process
              (snd (_get_device_id bsd_no_hardware fresh_process))
              (lit "fb_mac:1099511628776"))
    as (n & E & _ & _ & _ & _ & R); [reflexivity | reflexivity |].
  exists n. split.
  - rewrite <- E. reflexivity.
  - apply R; reflexivity.
Defined.

(** ** Construction *)

(** X13.  [SystemInfo()] succeeds exactly when the account query, the
    host name and the user name are obtained.  It then returns a new
    reference to an object holding the device identifier, the three
    answers and the platform tag.  When one of the three fails, the error
    raised is that of the first failing step in that order and no object
    is added. *)
Theorem construction_outcome (host : Host) (p : process) :
  (forall a n u,
     _get_account_id host = Ok a ->
     socket_gethostname host = Ok n ->
     getpass_getuser host = Ok u ->
     exists d p1,
       _get_device_id host p = (Ok d, p1) /\
       new host p =
         (Ok (List.length (objects p)),
          mkProcess (uuid_node p1) (draws p1)
                    (objects p ++ [mkSystemInfo d a n u (sys_platform host)]))) /\
  (forall e,
     _get_account_id host = Raise e \/
     ((exists a, _get_account_id host = Ok a) /\
      socket_gethostname host = Raise e) \/
     ((exists a, _get_account_id host = Ok a) /\
      (exists n, socket_gethostname host = Ok n) /\
      getpass_getuser host = Raise e) ->
     exists p1, new host p = (Raise e, p1) /\ objects p1 = objects p).
Proof.
  pose proof (get_device_id_objects host p) as Hobj.
  assert (Hd : exists d p1, _get_device_id host p = (Ok d, p1)).
  { destruct (get_device_id_cases host p)
      as [(t & v & _ & _ & H) | (n & q & _ & _ & _ & H)];
      rewrite H; eexists; eexists; reflexivity. }
  destruct Hd as (d & p1 & Hd). rewrite Hd in Hobj. simpl in Hobj.
  unfold new, __init__, bind, lift, ret. rewrite Hd.
  split.
  - intros a n u -> -> ->. exists d, p1. rewrite Hobj. now split.
  - intros e [-> | [[[a ->] ->] | [[a ->] [[n ->] ->]]]];
      exists p1; now split.
Qed.

Lemma construction_outcome_witness :
  new bsd_no_hardware fresh_process
    = (Ok 0%nat,
       mkProcess (Some 1099511628776) 1
         [mkSystemInfo (lit "fb_mac:1099511628776") (lit "uid:1000")
                       (lit "workstation") (lit "olena") (lit "freebsd14")]).
Proof.
  destruct (construction_outcome bsd_no_hardware fresh_process) as [Good _].
  destruct (Good (lit "uid:1000") (lit "workstation") (lit "olena"))
    as (d & p1 & D & N); [reflexivity | reflexivity | reflexivity |].
  injection D as <- <-. exact N.
Defined.

(** ** What holds throughout the life of a process *)

Lemma get_device_id_quiet_when_remembered
      (host : Host) (p : process) (n : Z) :
  uuid_node p = Some n -> snd (_get_device_id host p) = p.
Proof.
  intros Hn.
  destruct (get_device_id_cases host p)
    as [(t & v & _ & _ & H) | (m & q & Hb & _ & _ & H)].
  - now rewrite H.
  - unfold _get_device_id, bind. now rewrite Hb, (getnode_remembered host p n Hn).
Qed.

Lemma init_quiet_when_remembered (host : Host) (p : process) (n : Z) :
  uuid_node p = Some n -> snd (__init__ host p) = p.
Proof.
  intros Hn. pose proof (get_device_id_quiet_when_remembered host p n Hn) as H.
  unfold __init__, bind, lift, ret.
  destruct (_get_device_id host p) as [[d|e] p1]; simpl in H; subst p1;
    [|reflexivity].
  destruct (_get_account_id host); [|reflexivity].
  destruct (socket_gethostname host); [|reflexivity].
  destruct (getpass_getuser host); reflexivity.
Qed.

Lemma after_keeps_node (c : call) (p : process) (n : Z) :
  uuid_node p = Some n ->
  uuid_node (after c p) = Some n /\ draws (after c p) = draws p.
Proof.
  intros Hn.
  destruct c as [now | self q | self | now self | self q v]; simpl.
  - pose proof (init_quiet_when_remembered now p n Hn) as H.
    unfold new, bind.
    destruct (__init__ now p) as [[o|e] p1]; simpl in H; subst p1; simpl; auto.
  - rewrite getter_reads. simpl. auto.
  - rewrite to_dict_reads. simpl. auto.
  - unfold to_json, bind. rewrite to_dict_reads.
    destruct (nth_error (objects p) self); simpl; auto.
  - unfold set_property, bind, deref, raise.
    destruct (nth_error (objects p) self); simpl; auto.
Qed.

Lemma after_all_keeps_node (cs : list call) (p : process) (n : Z) :
  uuid_node p = Some n ->
  uuid_node (after_all cs p) = Some n /\ draws (after_all cs p) = draws p.
Proof.
  revert p. induction cs as [|c cs IH]; intros p Hn; [now split|].
  change (after_all (c :: cs) p) with (after_all cs (after c p)).
  destruct (after_keeps_node c p n Hn) as [Hn' Hd'].
  destruct (IH (after c p) Hn') as [Hn'' Hd'']. split; congruence.
Qed.

(** X15.  Once the process remembers a node, it remembers the same node
    after any sequence of calls made through the class, no further random
    draw is made, and every fallback device identifier issued later
    carries that node, whatever the host answers at that moment about its
    hardware. *)
Theorem node_is_remembered (cs : list call) (p : process) (n : Z) :
  uuid_node p = Some n ->
  uuid_node (after_all cs p) = Some n /\
  draws (after_all cs p) = draws p /\
  (forall now s p',
     _get_device_id now (after_all cs p) = (Ok s, p') ->
     startswith (lit "fb_mac:") s = true ->
     s = lit "fb_mac:" ++ str_of_int n).
Proof.
  intros Hn. destruct (after_all_keeps_node cs p n Hn) as [Hn' Hd'].
  split; [exact Hn'|]. split; [exact Hd'|].
  intros now s p' H Hfb.
  destruct (get_device_id_cases now (after_all cs p))
    as [(t & v & Ht & _ & H') | (m & q & Hb & _ & _ & _)].
  { rewrite H' in H. injection H as <- <-. simpl in Ht.
    destruct Ht as [<-|[<-|[<-|[]]]]; discriminate. }
  unfold _get_device_id, bind in H.
  rewrite Hb, (getnode_remembered now _ n Hn') in H.
  now injection H as <- _.
Qed.

Lemma node_is_remembered_witness :
  uuid_node (after_all [Construct windows_whoami_fails; Get 0 P_device_id]
                       (snd (new bsd_no_hardware fresh_process)))
    = Some 1099511628776.
Proof.
  apply (node_is_remembered
           [Construct windows_whoami_fails; Get 0 P_device_id]
           (snd (new bsd_no_hardware fresh_process)) 1099511628776).
  reflexivity.
Defined.

(** ** The account identifier as text *)

Lemma sid_line_from_shape (lines : list str) (s : str) :
  sid_line_from lines = Some s ->
  exists line, In line lines /\ s = lit "sid:" ++ strip line.
Proof.
  induction lines as [|line rest IH]; [discriminate|].
  change (sid_line_from (line :: rest))
    with (if startswith (lit "S-1-") (strip line)
          then Some (lit "sid:" ++ strip line)
          else sid_line_from rest).
  destruct (startswith (lit "S-1-") (strip line)).
  - intros [= <-]. exists line. split; [now left | reflexivity].
  - intros H. destruct (IH H) as (l & Hl & E). exists l. split; [now right | exact E].
Qed.

Lemma digit_or_sign_is_not_space (c : Z) :
  isdigit c || (c =? 45) = true -> negb (isspace c) = true.
Proof.
  unfold isdigit, isspace. intros H.
  apply Bool.negb_true_iff, Bool.not_true_iff_false. intros S. revert H S.
  rewrite !Bool.orb_true_iff, !Bool.andb_true_iff, !Z.leb_le, !Z.eqb_eq.
  lia.
Qed.

(** Both what follows the tag and the whole identifier. *)
Lemma tagged_is_tidy (tag body : str) :
  single_line tag = true -> no_trailing_space tag = true -> tag <> [] ->
  single_line body = true -> no_trailing_space body = true ->
  single_line (tag ++ body) = true /\ no_trailing_space (tag ++ body) = true.
Proof.
  intros T1 T2 T3 B1 B2. split.
  - now rewrite single_line_app, T1, B1.
  - now apply no_trailing_space_tagged.
Qed.

(** X16.  Whatever [_get_account_id] returns, on any platform, is one
    line of text that does not end with white space. *)
Theorem account_id_is_tidy (host : Host) (a : str) :
  _get_account_id host = Ok a ->
  single_line a = true /\ no_trailing_space a = true.
Proof.
  unfold _get_account_id.
  destruct (startswith (lit "win") (sys_platform host)).
  - destruct (check_output host _ true) as [out|e]; [|discriminate].
    unfold rbind.
    destruct (sid_line_from (splitlines out)) as [s|] eqn:L.
    + intros [= <-]. apply sid_line_from_shape in L as (line & Hl & ->).
      pose proof (splitlines_from_single_line out [] eq_refl) as Lines.
      rewrite Forall_forall in Lines.
      apply (tagged_is_tidy (lit "sid:") (strip line));
        try reflexivity; try discriminate.
      * apply strip_single_line. now apply Lines.
      * apply strip_spec.
    + destruct (filter _ (split_ws out)) as [|x parts] eqn:F.
      { intros [= <-]. now split. }
      unfold item_from_end.
      destruct (nth_error (rev (x :: parts)) (1 - 1)) as [y|] eqn:N;
        [|discriminate].
      intros [= <-].
      apply nth_error_In, in_rev in N. rewrite <- F in N.
      apply filter_In in N as [N _].
      pose proof (split_ws_from_words out [] eq_refl) as Words.
      rewrite Forall_forall in Words. destruct (Words y N) as [W _].
      apply word_is_tidy in W as [W1 W2].
      apply (tagged_is_tidy (lit "sid:") y);
        try reflexivity; try discriminate; assumption.
  - destruct (os_getuid host) as [uid|e]; simpl; intros [= <-];
      [|now split].
    destruct (str_of_int_chars uid) as [C _].
    assert (W : forallb (fun c => negb (isspace c)) (str_of_int uid) = true).
    { rewrite forallb_forall in *. intros c Hc.
      now apply digit_or_sign_is_not_space, C. }
    apply word_is_tidy in W as [W1 W2].
    apply (tagged_is_tidy (lit "uid:") (str_of_int uid));
      try reflexivity; try discriminate; assumption.
Qed.

Lemma account_id_is_tidy_witness :
  _get_account_id windows_host
    = Ok (lit "sid:S-1-5-21-1004336348-1177238915-1003") /\
  single_line (lit "sid:S-1-5-21-1004336348-1177238915-1003") = true.
Proof.
  assert (R : _get_account_id windows_host
              = Ok (lit "sid:S-1-5-21-1004336348-1177238915-1003"))
    by (vm_compute; reflexivity).
  split; [exact R|].
  apply (account_id_is_tidy windows_host _ R).
Defined.

Lemma sid_line_from_none (lines : list str) :
  (forall line, In line lines ->
                startswith (lit "S-1-") (strip line) = false) ->
  sid_line_from lines = None.
Proof.
  induction lines as [|line rest IH]; intros H; [reflexivity|].
  change (sid_line_from (line :: rest))
    with (if startswith (lit "S-1-") (strip line)
          then Some (lit "sid:" ++ strip line)
          else sid_line_from rest).
  rewrite (H line (or_introl eq_refl)).
  apply IH. intros l Hl. apply H. now right.
Qed.

(** X18.  On Windows, once the account query has answered, the sentinel
    sid:unknown is returned exactly when no white-space separated word of
    the output begins with S-1-: a line that the first scan would accept
    always contains a word that the second scan accepts. *)
Theorem windows_sentinel_iff_no_marker (host : Host) (out : str) :
  startswith (lit "win") (sys_platform host) = true ->
  check_output host [lit "whoami"; lit "/user"] true = Ok out ->
  (_get_account_id host = Ok (lit "sid:unknown") <->
   forallb (fun w => negb (startswith (lit "S-1-") w)) (split_ws out) = true).
Proof.
  intros Hw Hout. unfold _get_account_id. rewrite Hw, Hout. unfold rbind.
  split.
  - destruct (sid_line_from (splitlines out)) as [s|] eqn:L.
    { apply sid_line_from_tagged in L. intros [= ->]. discriminate. }
    destruct (filter _ (split_ws out)) as [|x parts] eqn:F.
    + intros _. apply forallb_forall. intros w Hin.
      destruct (startswith (lit "S-1-") w) eqn:E; [|reflexivity].
      assert (In w (filter (startswith (lit "S-1-")) (split_ws out)))
        by (apply filter_In; now split).
      rewrite F in H. destruct H.
    + unfold item_from_end.
      destruct (nth_error (rev (x :: parts)) (1 - 1)) as [y|] eqn:N;
        [|discriminate].
      apply nth_error_In, in_rev in N. rewrite <- F in N.
      apply filter_In in N as [_ N].
      apply startswith_elim in N as [r ->]. intros [= E].
  - intros Hno. rewrite forallb_forall in Hno.
    rewrite sid_line_from_none.
    + destruct (filter _ (split_ws out)) as [|x parts] eqn:F; [reflexivity|].
      assert (Hx : In x (filter (startswith (lit "S-1-")) (split_ws out)))
        by (rewrite F; now left).
      apply filter_In in Hx as [Hx Hm]. specialize (Hno x Hx).
      now rewrite Hm in Hno.
    + intros line Hin.
      destruct (startswith (lit "S-1-") (strip line)) eqn:E; [|reflexivity].
      destruct (marker_line_has_marker_word out line Hin E) as (w & Hw' & Hm).
      specialize (Hno w Hw'). now rewrite Hm in Hno.
Qed.

Lemma windows_sentinel_iff_no_marker_witness :
  _get_account_id
    (machine (lit "win32") (Ok (lit "ERROR: no logon session")) (Some 1))
    = Ok (lit "sid:unknown").
Proof.
  apply (windows_sentinel_iff_no_marker
           (machine (lit "win32") (Ok (lit "ERROR: no logon session")) (Some 1))
           (lit "ERROR: no logon session"));
    vm_compute; reflexivity.
Defined.

(** ** Every snapshot carries its tags *)

Lemma device_id_tagged_aux (host : Host) (p p1 : process) (d : str) :
  _get_device_id host p = (Ok d, p1) ->
  tags_matching device_tags d = 1%nat.
Proof.
  intros H.
  destruct (get_device_id_cases host p)
    as [(t & v & Ht & _ & H') | (n & q & _ & _ & _ & H')];
    rewrite H' in H; injection H as <- <-.
  - simpl in Ht. destruct Ht as [<-|[<-|[<-|[]]]]; vm_compute; reflexivity.
  - vm_compute. reflexivity.
Qed.

Lemma account_id_tagged_aux (host : Host) (a : str) :
  _get_account_id host = Ok a ->
  startswith (lit "sid:") a || startswith (lit "uid:") a = true.
Proof.
  intros H.
  destruct (startswith (lit "win") (sys_platform host)) eqn:W.
  - destruct (check_output host [lit "whoami"; lit "/user"] true)
      as [out|e] eqn:O.
    + destruct (get_account_id_windows host out W O) as (s & Hs & [->|T]);
        rewrite Hs in H; injection H as <-; [reflexivity|].
      apply (startswith_weaken (lit "sid:") (lit "S-1-")) in T.
      now rewrite T.
    + now rewrite (get_account_id_windows_raises host e W O) in H.
  - destruct (get_account_id_posix host W) as (s & Hs & [->|(uid & _ & ->)]);
      rewrite Hs in H; injection H as <-; reflexivity.
Qed.

Lemma new_adds_tagged (host : Host) (p : process) :
  exists l, objects (snd (new host p)) = objects p ++ l /\
            forallb well_tagged l = true.
Proof.
  pose proof (init_objects host p) as Hobj.
  unfold new, bind.
  destruct (__init__ host p) as [[o|e] p1] eqn:I; simpl in *.
  - exists [o]. rewrite Hobj. split; [reflexivity|].
    destruct (init_inversion host p p1 o I)
      as (d & a & n & u & Hd & Ha & _ & _ & ->).
    cbn [forallb]. rewrite Bool.andb_true_r.
    unfold well_tagged. cbn [__device_id __account_id].
    rewrite (device_id_tagged_aux host p p1 d Hd).
    now rewrite (account_id_tagged_aux host a Ha).
  - exists []. now rewrite app_nil_r.
Qed.

Lemma after_adds_tagged (c : call) (p : process) :
  exists l, objects (after c p) = objects p ++ l /\
            forallb well_tagged l = true.
Proof.
  destruct c as [now | self q | self | now self | self q v]; simpl.
  - apply new_adds_tagged.
  - rewrite getter_reads. exists []. now rewrite app_nil_r.
  - rewrite to_dict_reads. exists []. now rewrite app_nil_r.
  - unfold to_json, bind. rewrite to_dict_reads. exists [].
    rewrite app_nil_r. now destruct (nth_error (objects p) self).
  - unfold set_property, bind, deref, raise. exists [].
    rewrite app_nil_r. now destruct (nth_error (objects p) self).
Qed.

(** X17.  Every snapshot a process ever holds carries its tags: whatever
    calls are made through the class, under whatever answers of the host,
    each object has a device identifier that begins with exactly one of
    the four device tags and an account identifier that begins with sid:
    or uid:. *)
Theorem snapshots_are_tagged (cs : list call) (p : process) :
  forallb well_tagged (objects p) = true ->
  forallb well_tagged (objects (after_all cs p)) = true.
Proof.
  revert p. induction cs as [|c cs IH]; intros p Hp; [exact Hp|].
  change (after_all (c :: cs) p) with (after_all cs (after c p)).
  apply IH. destruct (after_adds_tagged c p) as (l & -> & Hl).
  now rewrite forallb_app, Hp, Hl.
Qed.

Lemma snapshots_are_tagged_witness :
  forallb well_tagged
    (objects (after_all [Construct windows_host; Construct bsd_no_hardware;
                         Construct windows_whoami_fails;
                         Construct (mac_host ioreg_text)]
                        fresh_process)) = true.
Proof.
  apply (snapshots_are_tagged
           [Construct windows_host; Construct bsd_no_hardware;
            Construct windows_whoami_fails; Construct (mac_host ioreg_text)]
           fresh_process).
  reflexivity.
Defined.

Lemma mac_platform_uuid_witness :
  _get_device_id (mac_host ioreg_text) fresh_process
    = (Ok (lit "mac:9E1F0A52-77C1"), fresh_process).
Proof.
  apply (mac_platform_uuid (mac_host ioreg_text) fresh_process ioreg_text
           [lit "+-o Root  <class IOPlatformExpertDevice>"] []
           (lit "    " ++ [34] ++ lit "IOPlatformUUID" ++ [34] ++ lit " = ")
           (lit "9E1F0A52-77C1") []);
    try (vm_compute; reflexivity).
  - repeat constructor.
  - repeat constructor; discriminate.
  - constructor.
Defined.

Lemma mac_key_line_without_quotes_witness :
  exists n p',
    _get_device_id (mac_host ioreg_text_unquoted) fresh_process
      = (Ok (lit "fb_mac:" ++ str_of_int n), p').
Proof.
  apply (mac_key_line_without_quotes
           (mac_host ioreg_text_unquoted) fresh_process ioreg_text_unquoted
           [] [[34] ++ lit "IOPlatformUUID" ++ [34] ++ lit " = "
               ++ [34] ++ lit "9E1F0A52-77C1" ++ [34]]
           (lit "IOPlatformUUID = none"));
    try (vm_compute; reflexivity).
  - constructor.
  - repeat constructor; discriminate.
Defined.

End SystemInfoMore.
